(** * Hopkins Concrete form backend: the quote endpoint of [server.js]

    A shallow embedding of [POST /api/quote] and of its three senders
    ([sendNotificationEmail], [pushToCRM], [sendConfirmationEmail]),
    followed by the properties of the validation block, of the rendered
    notification e-mail, of the CRM payload and of the aggregated response.

    - JavaScript strings are sequences of UTF-16 code units ([list N]);
      [length] is therefore JavaScript's [.length].
    - Request bodies are JSON values ([JsValue]); the handler applies the
      JavaScript coercions ([!v], [v || d], template substitution, method
      calls on non-strings) exactly where the source does.
    - The outside world (clock, Resend, [fetch], console) is reached through
      the effects of [Eff]; a handler is a program tree [Prog] that is run
      against an arbitrary [World]. *)

From Stdlib Require Import NArith List String Ascii Bool Lia DecimalString.
From stdpp Require Import gmap strings.
Import ListNotations.

Set Warnings "-register-all".

Local Open Scope N_scope.
Local Open Scope list_scope.

(** ** JavaScript strings *)

Abbreviation jsstring := (list N).

(** A source literal.  Rocq's own string delimiter cannot occur in a
    literal, so the double quote (code unit 34) is written as a backquote
    (code unit 96), a character no template of [server.js] contains. *)
Definition lit (s : string) : jsstring :=
  map (fun a : ascii => let c := N_of_ascii a in if c =? 96 then 34 else c)
      (list_ascii_of_string s).

Definition jsstring_eqb (a b : jsstring) : bool := bool_decide (a = b).

(** ECMAScript [WhiteSpace] and [LineTerminator] code points: the set that
    [String.prototype.trim] strips and that [\s] matches. *)
Definition isWhiteSpace (c : N) : bool :=
  (c =? 9) || (c =? 10) || (c =? 11) || (c =? 12) || (c =? 13) || (c =? 32)
  || (c =? 160) || (c =? 5760) || ((8192 <=? c) && (c <=? 8202))
  || (c =? 8232) || (c =? 8233) || (c =? 8239) || (c =? 8287)
  || (c =? 12288) || (c =? 65279).

(** [\d] without the [u] flag: the ten ASCII digits. *)
Definition isDigit (c : N) : bool := (48 <=? c) && (c <=? 57).

Fixpoint trimStart (s : jsstring) : jsstring :=
  match s with
  | [] => []
  | c :: rest => if isWhiteSpace c then trimStart rest else s
  end.

Definition trimEnd (s : jsstring) : jsstring := rev (trimStart (rev s)).

(** [s.trim()] *)
Definition trim (s : jsstring) : jsstring := trimEnd (trimStart s).

(** [s.replace(/\D/g, "")] *)
Definition stripNonDigits (s : jsstring) : jsstring := filter isDigit s.

(** Decimal rendering of a non-negative integer number. *)
Definition decimal (n : N) : jsstring :=
  lit (NilEmpty.string_of_uint (N.to_uint n)).

(** ** Exceptions *)

(** Thrown values are [Error] objects; only [err.message] is ever read. *)
Record JsError := mkError { err_message : jsstring }.

Definition TypeError (msg : string) : JsError := mkError (lit msg).

Inductive Completion (A : Type) : Type :=
| Normal (a : A)
| Throw (e : JsError).
Arguments Normal {A} a.
Arguments Throw {A} e.

Definition cbind {A B} (c : Completion A) (k : A -> Completion B) : Completion B :=
  match c with
  | Normal a => k a
  | Throw e => Throw e
  end.

Declare Scope completion_scope.
Delimit Scope completion_scope with completion.
Notation "'let!' x ':=' c 'in' k" := (cbind c (fun x => k))
  (at level 10, x name, c at level 100, k at level 200, only parsing)
  : completion_scope.

(** ** JSON values *)

(** A number is kept as its [Number::toString] rendering: truthiness and
    string conversion are the only observations the handler makes of it. *)
Inductive JsValue :=
| JUndefined
| JNull
| JBool (b : bool)
| JNumber (repr : jsstring)
| JString (s : jsstring)
| JArray (elems : list JsValue)
| JObject (props : list (jsstring * JsValue)).

(** [ToBoolean] *)
Definition truthy (v : JsValue) : bool :=
  match v with
  | JUndefined | JNull => false
  | JBool b => b
  | JNumber repr => negb (jsstring_eqb repr (lit "0") || jsstring_eqb repr (lit "NaN"))
  | JString s => negb (jsstring_eqb s [])
  | JArray _ | JObject _ => true
  end.

(** [a || b] *)
Definition or_else (a b : JsValue) : JsValue := if truthy a then a else b.

Definition nullish (v : JsValue) : bool :=
  match v with
  | JUndefined | JNull => true
  | _ => false
  end.

Fixpoint own_property (key : jsstring) (props : list (jsstring * JsValue)) : option JsValue :=
  match props with
  | [] => None
  | (k, v) :: rest =>
      match own_property key rest with
      | Some later => Some later
      | None => if jsstring_eqb k key then Some v else None
      end
  end.

(** [v.key] for a data property that no built-in prototype defines. *)
Definition get (v : JsValue) (key : string) : Completion JsValue :=
  match v with
  | JUndefined =>
      Throw (TypeError ("Cannot read properties of undefined (reading '" ++ key ++ "')"))
  | JNull =>
      Throw (TypeError ("Cannot read properties of null (reading '" ++ key ++ "')"))
  | JObject props =>
      Normal (match own_property (lit key) props with Some x => x | None => JUndefined end)
  | _ => Normal JUndefined
  end.

(** [ToString], as applied by template literals and by [RegExp.prototype.test].
    A parsed JSON object converts through [Object.prototype.toString] unless
    an own [toString] property (never callable) shadows it, in which case
    [valueOf] cannot yield a primitive either and the conversion throws. *)
Fixpoint ToString (v : JsValue) : Completion jsstring :=
  match v with
  | JUndefined => Normal (lit "undefined")
  | JNull => Normal (lit "null")
  | JBool true => Normal (lit "true")
  | JBool false => Normal (lit "false")
  | JNumber repr => Normal repr
  | JString s => Normal s
  | JArray elems =>
      (fix join (l : list JsValue) : Completion jsstring :=
         match l with
         | [] => Normal []
         | x :: rest =>
             match (if nullish x then Normal [] else ToString x) with
             | Throw e => Throw e
             | Normal s =>
                 match rest with
                 | [] => Normal s
                 | _ :: _ =>
                     match join rest with
                     | Throw e => Throw e
                     | Normal r => Normal (s ++ lit "," ++ r)
                     end
                 end
             end
         end) elems
  | JObject props =>
      match own_property (lit "toString") props with
      | Some _ => Throw (TypeError "Cannot convert object to primitive value")
      | None => Normal (lit "[object Object]")
      end
  end.

(** ** Regular expressions *)

Inductive regex :=
| Void
| Eps
| Class (p : N -> bool)
| Seq (r1 r2 : regex)
| Alt (r1 r2 : regex)
| Star (r : regex).

(** [r+] *)
Definition Plus (r : regex) : regex := Seq r (Star r).

Fixpoint nullable (r : regex) : bool :=
  match r with
  | Void => false
  | Eps => true
  | Class _ => false
  | Seq r1 r2 => nullable r1 && nullable r2
  | Alt r1 r2 => nullable r1 || nullable r2
  | Star _ => true
  end.

Fixpoint deriv (c : N) (r : regex) : regex :=
  match r with
  | Void => Void
  | Eps => Void
  | Class p => if p c then Eps else Void
  | Seq r1 r2 =>
      if nullable r1
      then Alt (Seq (deriv c r1) r2) (deriv c r2)
      else Seq (deriv c r1) r2
  | Alt r1 r2 => Alt (deriv c r1) (deriv c r2)
  | Star r1 => Seq (deriv c r1) (Star r1)
  end.

(** Whole-input match, i.e. the pattern between [^] and [$] (no [m] flag). *)
Fixpoint full_match (r : regex) (s : jsstring) : bool :=
  match s with
  | [] => nullable r
  | c :: rest => full_match (deriv c r) rest
  end.

(** [[^\s@]] *)
Definition notSpaceNorAt (c : N) : bool := negb (isWhiteSpace c || (c =? 64)).

(** [/^[^\s@]+@[^\s@]+\.[^\s@]+$/] *)
Definition emailPattern : regex :=
  Seq (Plus (Class notSpaceNorAt))
    (Seq (Class (N.eqb 64))
       (Seq (Plus (Class notSpaceNorAt))
          (Seq (Class (N.eqb 46))
             (Plus (Class notSpaceNorAt))))).

(** [pattern.test(v)] *)
Definition regex_test (r : regex) (v : JsValue) : Completion bool :=
  (let! s := ToString v in Normal (full_match r s))%completion.

(** A template literal: literal chunks and [${...}] substitutions, converted
    with [ToString] from left to right. *)
Inductive Part :=
| Lit (s : string)
| Units (s : jsstring)
| Sub (v : JsValue).

Fixpoint render (parts : list Part) : Completion jsstring :=
  match parts with
  | [] => Normal []
  | Lit s :: rest => cbind (render rest) (fun r => Normal (lit s ++ r))
  | Units s :: rest => cbind (render rest) (fun r => Normal (s ++ r))
  | Sub v :: rest =>
      cbind (ToString v) (fun s => cbind (render rest) (fun r => Normal (s ++ r)))
  end.

(** The em dash of the source's texts (U+2014). *)
Definition emDash : jsstring := [8212].

(** ** The submission *)

(** The nine fields destructured from [req.body]. *)
Record Submission := {
  name : JsValue;
  phone : JsValue;
  email : JsValue;
  service : JsValue;
  address : JsValue;
  zipcode : JsValue;
  timeline : JsValue;
  budget : JsValue;
  message : JsValue
}.

(** [const { name, phone, ... } = req.body] *)
Definition destructure (body : JsValue) : Completion Submission :=
  match body with
  | JUndefined =>
      Throw (TypeError "Cannot destructure property 'name' of 'req.body' as it is undefined.")
  | JNull =>
      Throw (TypeError "Cannot destructure property 'name' of 'req.body' as it is null.")
  | _ =>
      (let! name := get body "name" in
       let! phone := get body "phone" in
       let! email := get body "email" in
       let! service := get body "service" in
       let! address := get body "address" in
       let! zipcode := get body "zipcode" in
       let! timeline := get body "timeline" in
       let! budget := get body "budget" in
       let! message := get body "message" in
       Normal {| name := name; phone := phone; email := email; service := service;
                 address := address; zipcode := zipcode; timeline := timeline;
                 budget := budget; message := message |})%completion
  end.

(** ** Validation (the block that fills [errors]) *)

(** [v.method(...)] for a [String.prototype] method: defined on strings only;
    on any other non-nullish JSON value the property is not a function. *)
Definition string_method {A} (obj meth : string) (f : jsstring -> A) (v : JsValue)
  : Completion A :=
  match v with
  | JString s => Normal (f s)
  | JUndefined =>
      Throw (TypeError ("Cannot read properties of undefined (reading '" ++ meth ++ "')"))
  | JNull =>
      Throw (TypeError ("Cannot read properties of null (reading '" ++ meth ++ "')"))
  | _ => Throw (TypeError (obj ++ "." ++ meth ++ " is not a function"))
  end.

(** [!name || name.trim().length < 2] *)
Definition name_check (v : JsValue) : Completion bool :=
  if negb (truthy v) then Normal true
  else (let! t := string_method "name" "trim" trim v in
        Normal (length t <? 2)%nat)%completion.

(** [!phone || phone.replace(/\D/g, "").length < 10] *)
Definition phone_check (v : JsValue) : Completion bool :=
  if negb (truthy v) then Normal true
  else (let! d := string_method "phone" "replace" stripNonDigits v in
        Normal (length d <? 10)%nat)%completion.

(** [!email || !/^[^\s@]+@[^\s@]+\.[^\s@]+$/.test(email)] *)
Definition email_check (v : JsValue) : Completion bool :=
  if negb (truthy v) then Normal true
  else (let! ok := regex_test emailPattern v in Normal (negb ok))%completion.

(** [!service] *)
Definition service_check (v : JsValue) : bool := negb (truthy v).

(** [if (c) errors.push(msg)] *)
Definition push_if (c : bool) (msg : string) (errors : list jsstring) : list jsstring :=
  if c then errors ++ [lit msg] else errors.

Definition validate (s : Submission) : Completion (list jsstring) :=
  (let errors := [] in
   let! c1 := name_check (name s) in
   let errors := push_if c1 "name is required" errors in
   let! c2 := phone_check (phone s) in
   let errors := push_if c2 "valid phone is required" errors in
   let! c3 := email_check (email s) in
   let errors := push_if c3 "valid email is required" errors in
   let errors := push_if (service_check (service s)) "service is required" errors in
   Normal errors)%completion.

(** ** Configuration *)

(** [process.env]: variable names to their (string) values. *)
Abbreviation Env := (gmap string jsstring).

(** [process.env.KEY] when truthy, i.e. set and not empty. *)
Definition env_truthy (env : Env) (key : string) : option jsstring :=
  match env !! key with
  | Some v => if truthy (JString v) then Some v else None
  | None => None
  end.

(** [process.env.KEY || fallback] *)
Definition env_or (env : Env) (key : string) (fallback : string) : jsstring :=
  match env_truthy env key with
  | Some v => v
  | None => lit fallback
  end.

(** ** Effects *)

(** The argument of [resend.emails.send]. *)
Record Email := {
  from : jsstring;
  to : list JsValue;
  subject : jsstring;
  html : jsstring
}.

(** The second argument of [fetch].  [body] is the object handed to
    [JSON.stringify], keys in source order; its serialisation is a function
    of that object. *)
Record FetchInit := {
  method : jsstring;
  headers : gmap string jsstring;
  body : list (string * JsValue)
}.

(** What the handler reads of a [fetch] response. *)
Record Response := { resp_ok : bool; resp_status : N }.

Inductive Level := Log | Warn | Error.

Inductive LogArg :=
| LText (s : jsstring)
| LValue (v : JsValue)
| LError (e : JsError).

(** Calls that leave the process.  Awaited calls answer with a completion:
    a rejected promise is a [Throw] at the [await]. *)
Inductive Eff : Type -> Type :=
| Now : Eff jsstring
| ResendSend (m : Email) : Eff (Completion JsValue)
| Fetch (url : jsstring) (init : FetchInit) : Eff (Completion Response)
| ResponseText (r : Response) : Eff (Completion jsstring)
| Console (lvl : Level) (args : list LogArg) : Eff unit.

Inductive Prog (A : Type) : Type :=
| Ret (a : A)
| Vis {X : Type} (e : Eff X) (k : X -> Prog A).
Arguments Ret {A} a.
Arguments Vis {A X} e k.

Fixpoint bind {A B} (p : Prog A) (f : A -> Prog B) : Prog B :=
  match p with
  | Ret a => f a
  | Vis e k => Vis e (fun x => bind (k x) f)
  end.

Definition perform {X} (e : Eff X) : Prog X := Vis e Ret.

(** Sequencing of statements that may throw. *)
Definition bindT {A B} (p : Prog (Completion A)) (f : A -> Prog (Completion B))
  : Prog (Completion B) :=
  bind p (fun c => match c with
                   | Normal a => f a
                   | Throw e => Ret (Throw e)
                   end).

(** [try { body } catch (err) { handler }] *)
Definition try_catch {A} (body : Prog (Completion A))
    (handler : JsError -> Prog (Completion A)) : Prog (Completion A) :=
  bind body (fun c => match c with
                      | Normal a => Ret (Normal a)
                      | Throw e => handler e
                      end).

Declare Scope prog_scope.
Delimit Scope prog_scope with prog.
Notation "'let*' x ':=' p 'in' k" := (bind p (fun x => k))
  (at level 10, x name, p at level 100, k at level 200, only parsing) : prog_scope.
Notation "'let*!' x ':=' p 'in' k" := (bindT p (fun x => k))
  (at level 10, x name, p at level 100, k at level 200, only parsing) : prog_scope.
Notation "'run!' p 'in' k" := (bind p (fun _ => k))
  (at level 10, p at level 100, k at level 200, only parsing) : prog_scope.

(** ** Running a program against a world *)

Definition Event : Type := { X : Type & Eff X }.

Definition event {X} (e : Eff X) : Event := existT X e.

(** A world answers every call and moves to its next state. *)
Definition World (W : Type) : Type := forall X, Eff X -> W -> X * W.

Fixpoint run {W A} (world : World W) (p : Prog A) (w : W) : A * list Event * W :=
  match p with
  | Ret a => (a, [], w)
  | Vis e k =>
      let '(x, w1) := world _ e w in
      let '(a, trace, w2) := run world (k x) w1 in
      (a, event e :: trace, w2)
  end.

Definition is_fetch (ev : Event) : bool :=
  match projT2 ev with
  | Fetch _ _ => true
  | _ => false
  end.

Definition is_send (ev : Event) : bool :=
  match projT2 ev with
  | ResendSend _ => true
  | _ => false
  end.

(** ** The senders *)

(** The three object shapes a sender returns:
    [{ success: true, id }], [{ success: response.ok, status }] and
    [{ success: false, error }]. *)
Inductive SenderResult :=
| Sent (id : JsValue)
| Pushed (ok : bool) (status : N)
| Failed (error : jsstring).

Definition success (r : SenderResult) : bool :=
  match r with
  | Sent _ => true
  | Pushed ok _ => ok
  | Failed _ => false
  end.

Definition pure {A} (c : Completion A) : Prog (Completion A) := Ret c.

Definition ok {A} (a : A) : Prog (Completion A) := Ret (Normal a).

(** [result.data?.id] *)
Definition result_id (result : JsValue) : Completion JsValue :=
  (let! data := get result "data" in
   if nullish data then Normal JUndefined else get data "id")%completion.

Definition notificationHtml (data : Submission) (timestamp : jsstring) : list Part :=
  [ Lit "
      <div style=`font-family: Arial, sans-serif; max-width: 600px; margin: 0 auto;`>
        <div style=`background-color: #03662b; padding: 20px; text-align: center;`>
          <h1 style=`color: #ffffff; margin: 0;`>New Quote Request</h1>
          <p style=`color: #c8e6c9; margin: 5px 0 0;`>Hopkins Concrete Contractors</p>
        </div>

        <div style=`padding: 24px; background-color: #f9f9f9;`>
          <h2 style=`color: #03662b; border-bottom: 2px solid #03662b; padding-bottom: 8px;`>Contact Info</h2>
          <table style=`width: 100%; border-collapse: collapse;`>
            <tr><td style=`padding: 8px 0; font-weight: bold; width: 120px;`>Name:</td><td>";
    Sub (name data);
    Lit "</td></tr>
            <tr><td style=`padding: 8px 0; font-weight: bold;`>Phone:</td><td><a href=`tel:";
    Sub (phone data);
    Lit "`>";
    Sub (phone data);
    Lit "</a></td></tr>
            <tr><td style=`padding: 8px 0; font-weight: bold;`>Email:</td><td><a href=`mailto:";
    Sub (email data);
    Lit "`>";
    Sub (email data);
    Lit "</a></td></tr>
          </table>

          <h2 style=`color: #03662b; border-bottom: 2px solid #03662b; padding-bottom: 8px; margin-top: 24px;`>Project Details</h2>
          <table style=`width: 100%; border-collapse: collapse;`>
            <tr><td style=`padding: 8px 0; font-weight: bold; width: 120px;`>Service:</td><td>";
    Sub (service data);
    Lit "</td></tr>
            <tr><td style=`padding: 8px 0; font-weight: bold;`>Address:</td><td>";
    Sub (or_else (address data) (JString (lit "Not provided")));
    Lit "</td></tr>
            <tr><td style=`padding: 8px 0; font-weight: bold;`>Zip Code:</td><td>";
    Sub (or_else (zipcode data) (JString (lit "Not provided")));
    Lit "</td></tr>
            <tr><td style=`padding: 8px 0; font-weight: bold;`>Timeline:</td><td>";
    Sub (or_else (timeline data) (JString (lit "Not specified")));
    Lit "</td></tr>
            <tr><td style=`padding: 8px 0; font-weight: bold;`>Budget:</td><td>";
    Sub (or_else (budget data) (JString (lit "Not specified")));
    Lit "</td></tr>
          </table>

          <h2 style=`color: #03662b; border-bottom: 2px solid #03662b; padding-bottom: 8px; margin-top: 24px;`>Message</h2>
          <p style=`background: #fff; padding: 16px; border-radius: 6px; border: 1px solid #ddd;`>";
    Sub (or_else (message data) (JString (lit "No message provided")));
    Lit "</p>

          <p style=`color: #888; font-size: 12px; margin-top: 24px;`>Submitted at ";
    Sub (JString timestamp);
    Lit "</p>
        </div>
      </div>
    " ].

(** The subject line; it opens with U+1F3D7 (a surrogate pair) and U+FE0F. *)
Definition notificationSubject (data : Submission) : list Part :=
  [ Units [55356; 57303; 65039]; Lit " New Quote Request "; Units emDash; Lit " ";
    Sub (service data); Lit " "; Units emDash; Lit " "; Sub (name data) ].

Definition sendNotificationEmail (env : Env) (data : Submission) (timestamp : jsstring)
  : Prog (Completion SenderResult) :=
  try_catch
    (let fromEmail := env_or env "RESEND_FROM_EMAIL" "Hopkins Concrete <noreply@webleadsnow.com>" in
     let toEmail := env_or env "NOTIFICATION_EMAIL" "info@hopkinsconcretecontractors.com" in
     let*! html := pure (render (notificationHtml data timestamp)) in
     let*! subject := pure (render (notificationSubject data)) in
     let*! result := perform (ResendSend {| from := fromEmail;
                                            to := [JString toEmail];
                                            subject := subject;
                                            html := html |}) in
     run! perform (Console Log [LText (lit "Notification email sent:"); LValue result]) in
     let*! id := pure (result_id result) in
     ok (Sent id))%prog
    (fun err =>
       (run! perform (Console Error [LText (lit "Failed to send notification email:");
                                     LError err]) in
        ok (Failed (err_message err)))%prog).

Definition confirmationHtml (name service : JsValue) : list Part :=
  [ Lit "
      <div style=`font-family: Arial, sans-serif; max-width: 600px; margin: 0 auto;`>
        <div style=`background-color: #03662b; padding: 20px; text-align: center;`>
          <h1 style=`color: #ffffff; margin: 0;`>Thank You, ";
    Sub name;
    Lit "!</h1>
        </div>
        <div style=`padding: 24px;`>
          <p>We received your request for <strong>";
    Sub service;
    Lit "</strong> and our team will be in touch within 24 hours with a free estimate.</p>
          <p>If you need immediate help, call us at <a href=`tel:6124733196` style=`color: #03662b; font-weight: bold;`>612-473-3196</a>.</p>
          <p style=`margin-top: 24px;`>";
    Units emDash;
    Lit " The Hopkins Concrete Team</p>
        </div>
      </div>
    " ].

Definition confirmationSubject : list Part :=
  [ Lit "We received your quote request "; Units emDash; Lit " Hopkins Concrete" ].

Definition sendConfirmationEmail (env : Env) (name email service : JsValue)
  : Prog (Completion SenderResult) :=
  try_catch
    (let fromEmail := env_or env "RESEND_FROM_EMAIL" "Hopkins Concrete <noreply@webleadsnow.com>" in
     let*! html := pure (render (confirmationHtml name service)) in
     let*! subject := pure (render confirmationSubject) in
     let*! result := perform (ResendSend {| from := fromEmail;
                                            to := [email];
                                            subject := subject;
                                            html := html |}) in
     run! perform (Console Log [LText (lit "Confirmation email sent to customer:");
                                LValue result]) in
     let*! id := pure (result_id result) in
     ok (Sent id))%prog
    (fun err =>
       (run! perform (Console Error [LText (lit "Failed to send confirmation email:");
                                     LError err]) in
        ok (Failed (err_message err)))%prog).

(** The object literal [payload] of [pushToCRM]. *)
Definition crmPayload (env : Env) (data : Submission) (timestamp : jsstring)
  : list (string * JsValue) :=
  [ ("form_id", JString (env_or env "CRM_FORM_ID" "hopkins-concrete-quote"));
    ("source", JString (lit "website"));
    ("name", name data);
    ("email", email data);
    ("phone", phone data);
    ("zip_code", or_else (zipcode data) (JString []));
    ("service", service data);
    ("address", or_else (address data) (JString []));
    ("timeline", or_else (timeline data) (JString []));
    ("budget", or_else (budget data) (JString []));
    ("message", or_else (message data) (JString []));
    ("submitted_at", JString timestamp);
    ("source_url", JString (lit "https://hopkinsconcretecontractors.com/contact-2/")) ]%string.

(** [headers], with [X-API-Key] added when [process.env.CRM_API_KEY] is truthy. *)
Definition crmHeaders (env : Env) : gmap string jsstring :=
  let headers : gmap string jsstring :=
    {[ "Content-Type"%string := lit "application/json" ]} in
  match env_truthy env "CRM_API_KEY" with
  | Some key => <[ "X-API-Key"%string := key ]> headers
  | None => headers
  end.

Definition crmResponseLabel (response : Response) : list Part :=
  [ Lit "CRM webhook response ("; Units (decimal (resp_status response)); Lit "):" ].

Definition pushToCRM (env : Env) (data : Submission) (timestamp : jsstring)
  : Prog (Completion SenderResult) :=
  match env_truthy env "CRM_WEBHOOK_URL" with
  | None =>
      (run! perform (Console Warn [LText (lit "CRM_WEBHOOK_URL not set " ++ emDash
                                           ++ lit " skipping CRM push")]) in
       ok (Failed (lit "CRM_WEBHOOK_URL not configured")))%prog
  | Some webhookUrl =>
      try_catch
        (let payload := crmPayload env data timestamp in
         let headers := crmHeaders env in
         let*! response := perform (Fetch webhookUrl {| method := lit "POST";
                                                        headers := headers;
                                                        body := payload |}) in
         let*! responseText := perform (ResponseText response) in
         let*! label := pure (render (crmResponseLabel response)) in
         run! perform (Console Log [LText label; LText responseText]) in
         ok (Pushed (resp_ok response) (resp_status response)))%prog
        (fun err =>
           (run! perform (Console Error [LText (lit "Failed to push to CRM:"); LError err]) in
            ok (Failed (err_message err)))%prog)
  end.

(** ** The endpoint *)

Record Details := {
  email_sent : bool;
  crm_pushed : bool;
  confirmation_sent : bool
}.

(** The three JSON bodies the handler sends:
    [{ success: false, errors }], [{ success: true, message, details }] and
    [{ success: false, message }]. *)
Inductive ResponseBody :=
| Rejected (errors : list jsstring)
| Accepted (message : jsstring) (details : Details)
| Failure (message : jsstring).

Definition body_success (b : ResponseBody) : bool :=
  match b with
  | Accepted _ _ => true
  | _ => false
  end.

Record HttpResponse := { status : N; json : ResponseBody }.

Definition requestLogLine (timestamp : jsstring) (name email service : JsValue)
  : list Part :=
  [ Lit "["; Sub (JString timestamp); Lit "] New quote request from "; Sub name;
    Lit " ("; Sub email; Lit ") "; Units emDash; Lit " service: "; Sub service ].

(** The body of the [try] block of [app.post("/api/quote", ...)], past the
    destructuring. *)
Definition handle_submission (env : Env) (s : Submission)
  : Prog (Completion HttpResponse) :=
  (let*! errors := pure (validate s) in
   if (0 <? length errors)%nat then
     ok {| status := 400; json := Rejected errors |}
   else
     let* timestamp := perform Now in
     let*! emailResult := sendNotificationEmail env s timestamp in
     let*! crmResult := pushToCRM env s timestamp in
     let*! confirmResult := sendConfirmationEmail env (name s) (email s) (service s) in
     let*! line := pure (render (requestLogLine timestamp (name s) (email s) (service s))) in
     run! perform (Console Log [LText line]) in
     ok {| status := 200;
           json := Accepted (lit "Quote request submitted successfully")
                     {| email_sent := success emailResult;
                        crm_pushed := success crmResult;
                        confirmation_sent := success confirmResult |} |})%prog.

(** [app.post("/api/quote", async (req, res) => { try { ... } catch (err) { ... } })] *)
Definition post_api_quote (env : Env) (req_body : JsValue) : Prog HttpResponse :=
  (let* outcome := (let*! s := pure (destructure req_body) in handle_submission env s) in
   match outcome with
   | Normal response => Ret response
   | Throw err =>
       run! perform (Console Error [LText (lit "Error processing quote request:");
                                    LError err]) in
       Ret {| status := 500;
              json := Failure (lit "Something went wrong. Please try again or call us directly.") |}
   end)%prog.

(** ** Vocabulary of the statements *)

(** The language of a regular expression. *)
Inductive matches : regex -> jsstring -> Prop :=
| MEps : matches Eps []
| MClass p c : p c = true -> matches (Class p) [c]
| MSeq r1 r2 s1 s2 :
    matches r1 s1 -> matches r2 s2 -> matches (Seq r1 r2) (s1 ++ s2)
| MAltL r1 r2 s : matches r1 s -> matches (Alt r1 r2) s
| MAltR r1 r2 s : matches r2 s -> matches (Alt r1 r2) s
| MStarNil r : matches (Star r) []
| MStarApp r s1 s2 :
    matches r s1 -> matches (Star r) s2 -> matches (Star r) (s1 ++ s2).

(** A character that is neither white space nor ["@"]. *)
Definition plain (c : N) : Prop := isWhiteSpace c = false /\ c <> 64.

(** One or more such characters. *)
Definition plain_run (s : jsstring) : Prop := s <> [] /\ Forall plain s.

(** The shape [x@y.z]: a run, ["@"], a run, ["."], a run. *)
Definition email_shape (s : jsstring) : Prop :=
  exists x y z, s = x ++ [64] ++ y ++ [46] ++ z
                /\ plain_run x /\ plain_run y /\ plain_run z.

Definition str (s : string) : JsValue := JString (lit s).


(** A field on which [String.prototype] methods are never reached or are
    defined: a falsy value or a string. *)
Definition stringy (v : JsValue) : bool :=
  negb (truthy v) || match v with JString _ => true | _ => false end.

(** A field as the data model has it: text, or left out. *)
Definition text_or_absent (v : JsValue) : bool :=
  match v with
  | JUndefined | JNull | JString _ => true
  | _ => false
  end.

Definition well_typed (s : Submission) : bool :=
  text_or_absent (name s) && text_or_absent (phone s) && text_or_absent (email s)
  && text_or_absent (service s) && text_or_absent (address s)
  && text_or_absent (zipcode s) && text_or_absent (timeline s)
  && text_or_absent (budget s) && text_or_absent (message s).

(** A submission of the data model that passes validation. *)
Definition valid_submission (s : Submission) : Prop :=
  well_typed s = true /\ validate s = Normal [].

(** The four rules, in the words of the specification. *)
Definition name_rule_fails (v : JsValue) : Prop :=
  match v with
  | JString t => (length (trim t) < 2)%nat
  | _ => True
  end.

Definition phone_rule_fails (v : JsValue) : Prop :=
  match v with
  | JString t => (length (stripNonDigits t) < 10)%nat
  | _ => True
  end.

Definition email_rule_fails (v : JsValue) : Prop :=
  match v with
  | JString t => ~ email_shape t
  | _ => True
  end.

Definition service_rule_fails (v : JsValue) : Prop := truthy v = false.

Definition all_messages : list jsstring :=
  [ lit "name is required"; lit "valid phone is required";
    lit "valid email is required"; lit "service is required" ].

(** The list [errors] after the four [if] statements, from their conditions. *)
Definition errors_of (c1 c2 c3 c4 : bool) : list jsstring :=
  push_if c4 "service is required"
    (push_if c3 "valid email is required"
       (push_if c2 "valid phone is required"
          (push_if c1 "name is required" []))).

(** ** Sample requests *)

(** The end-to-end example: all required fields, no optional one. *)
Definition jane : Submission :=
  {| name := str "Jane Doe"; phone := str "6124733196";
     email := str "jane@example.com"; service := str "Driveway";
     address := JUndefined; zipcode := JUndefined; timeline := JUndefined;
     budget := JUndefined; message := JUndefined |}.

Definition with_name (v : JsValue) (s : Submission) : Submission :=
  {| name := v; phone := phone s; email := email s; service := service s;
     address := address s; zipcode := zipcode s; timeline := timeline s;
     budget := budget s; message := message s |}.

Definition with_phone (v : JsValue) (s : Submission) : Submission :=
  {| name := name s; phone := v; email := email s; service := service s;
     address := address s; zipcode := zipcode s; timeline := timeline s;
     budget := budget s; message := message s |}.


(** The request body [{"name": 42, "phone": "6124733196",
    "email": "jane@example.com", "service": "Driveway"}]. *)
Definition numeric_name_body : JsValue :=
  JObject [ (lit "name", JNumber (lit "42")); (lit "phone", str "6124733196");
            (lit "email", str "jane@example.com"); (lit "service", str "Driveway") ].

(** The same request with the phone sent as a JSON number. *)
Definition numeric_phone_body : JsValue :=
  JObject [ (lit "name", str "Jane Doe"); (lit "phone", JNumber (lit "6124733196"));
            (lit "email", str "jane@example.com"); (lit "service", str "Driveway") ].

(** A request whose service is the JSON object [{"toString": 1}]. *)
Definition object_service_body : JsValue :=
  JObject [ (lit "name", str "Jane Doe"); (lit "phone", str "6124733196");
            (lit "email", str "jane@example.com");
            (lit "service", JObject [ (lit "toString", JNumber (lit "1")) ]) ].



Definition jane_body : JsValue :=
  JObject [ (lit "name", str "Jane Doe"); (lit "phone", str "6124733196");
            (lit "email", str "jane@example.com"); (lit "service", str "Driveway") ].

(** A world whose first [resend.emails.send] is rejected and whose later
    ones succeed; the CRM answers 200. *)
Definition first_send_fails : World nat :=
  fun X e n =>
    match e in Eff X return X * nat with
    | Now => (lit "2026-11-03T12:00:00.000Z", n)
    | ResendSend _ =>
        (if (n =? 0)%nat
         then Throw (mkError (lit "API key is invalid"))
         else Normal (JObject [ (lit "data", JObject [ (lit "id", str "msg_1") ]) ]),
         S n)
    | Fetch _ _ => (Normal {| resp_ok := true; resp_status := 200 |}, n)
    | ResponseText _ => (Normal (lit "received"), n)
    | Console _ _ => (tt, n)
    end.

(** ** Statements about runs *)

(** The [catch] clause shared by the three senders. *)
Definition report_failure (label : string) (err : JsError)
  : Prog (Completion SenderResult) :=
  (run! perform (Console Error [LText (lit label); LError err]) in
   ok (Failed (err_message err)))%prog.

(** The answer of the outer [catch]. *)
Definition server_error : HttpResponse :=
  {| status := 500;
     json := Failure (lit "Something went wrong. Please try again or call us directly.") |}.

Definition accepted (d : Details) : HttpResponse :=
  {| status := 200;
     json := Accepted (lit "Quote request submitted successfully") d |}.

(** The run of the endpoint on [req_body] is: read the clock, run the three
    senders one after the other, each to a normal return, log one line, and
    answer 200 with the three [success] flags. *)
Definition fans_out (env : Env) (req_body : JsValue) (s : Submission)
    {W} (world : World W) (w : W) : Prop :=
  exists ts w1 r1 t1 w2 r2 t2 w3 r3 t3 w4 line w5,
    world _ Now w = (ts, w1)
    /\ run world (sendNotificationEmail env s ts) w1 = (Normal r1, t1, w2)
    /\ run world (pushToCRM env s ts) w2 = (Normal r2, t2, w3)
    /\ run world (sendConfirmationEmail env (name s) (email s) (service s)) w3
       = (Normal r3, t3, w4)
    /\ existsb is_send t1 = true
    /\ t2 <> []
    /\ existsb is_send t3 = true
    /\ run world (post_api_quote env req_body) w
       = (accepted {| email_sent := success r1;
                      crm_pushed := success r2;
                      confirmation_sent := success r3 |},
          event Now :: t1 ++ t2 ++ t3 ++ [event (Console Log [LText line])],
          w5).

(** No webhook URL: [CRM_WEBHOOK_URL] unset, or set to the empty string. *)
Definition webhook_unconfigured (env : Env) : Prop :=
  env !! "CRM_WEBHOOK_URL"%string = None \/ env !! "CRM_WEBHOOK_URL"%string = Some [].

Definition skip_warning : jsstring :=
  lit "CRM_WEBHOOK_URL not set " ++ emDash ++ lit " skipping CRM push".

(** The value of a key of an object literal. *)
Fixpoint payload_get (key : string) (obj : list (string * JsValue)) : option JsValue :=
  match obj with
  | [] => None
  | (k, v) :: rest => if String.eqb k key then Some v else payload_get key rest
  end.

(** An optional field as the CRM receives it: its text, or the empty string. *)
Definition optional_text (v : JsValue) : jsstring :=
  match v with
  | JString t => t
  | _ => []
  end.

(** The form identifier: the configured one, or the default. *)
Definition form_identifier (env : Env) : jsstring :=
  match env !! "CRM_FORM_ID"%string with
  | Some [] | None => lit "hopkins-concrete-quote"
  | Some id => id
  end.

Definition payload_keys : list string :=
  [ "form_id"; "source"; "name"; "email"; "phone"; "zip_code"; "service";
    "address"; "timeline"; "budget"; "message"; "submitted_at"; "source_url" ]%string.

Definition is_text (v : JsValue) : Prop := exists t, v = JString t.

(** An environment with a webhook and an API key. *)
Definition crm_env : Env :=
  <[ "CRM_WEBHOOK_URL"%string := lit "https://crm.example/hook" ]>
    (<[ "CRM_API_KEY"%string := lit "secret" ]> ∅).

(** ** Optional fields and their cells in the notification e-mail *)

Definition text_part (p : Part) : Prop :=
  match p with
  | Sub v => text_or_absent v = true
  | _ => True
  end.

Inductive OptionalField := Address | Zipcode | Timeline | Budget | Message.

Definition field (f : OptionalField) (s : Submission) : JsValue :=
  match f with
  | Address => address s
  | Zipcode => zipcode s
  | Timeline => timeline s
  | Budget => budget s
  | Message => message s
  end.

Definition placeholder (f : OptionalField) : string :=
  match f with
  | Address | Zipcode => "Not provided"
  | Timeline | Budget => "Not specified"
  | Message => "No message provided"
  end.

Definition cell_open (f : OptionalField) : string :=
  match f with
  | Address => "Address:</td><td>"
  | Zipcode => "Zip Code:</td><td>"
  | Timeline => "Timeline:</td><td>"
  | Budget => "Budget:</td><td>"
  | Message => "Message</h2>
          <p style=`background: #fff; padding: 16px; border-radius: 6px; border: 1px solid #ddd;`>"
  end.

Definition cell_close (f : OptionalField) : string :=
  match f with
  | Message => "</p>"
  | _ => "</td></tr>"
  end.

Definition cell (f : OptionalField) (value : jsstring) : jsstring :=
  lit (cell_open f) ++ value ++ lit (cell_close f).

Definition occurs_in (part whole : jsstring) : Prop :=
  exists before after, whole = before ++ part ++ after.

Definition display (f : OptionalField) (s : Submission) : jsstring :=
  match field f s with
  | JString (c :: t) => c :: t
  | _ => lit (placeholder f)
  end.

Definition crm_key (f : OptionalField) : string :=
  match f with
  | Address => "address"
  | Zipcode => "zip_code"
  | Timeline => "timeline"
  | Budget => "budget"
  | Message => "message"
  end.

Definition with_optional (f : OptionalField) (v : JsValue) (s : Submission) : Submission :=
  {| name := name s; phone := phone s; email := email s; service := service s;
     address := match f with Address => v | _ => address s end;
     zipcode := match f with Zipcode => v | _ => zipcode s end;
     timeline := match f with Timeline => v | _ => timeline s end;
     budget := match f with Budget => v | _ => budget s end;
     message := match f with Message => v | _ => message s end |}.

Definition required_only (n p e v : jsstring) : Submission :=
  {| name := JString n; phone := JString p; email := JString e; service := JString v;
     address := JUndefined; zipcode := JUndefined; timeline := JUndefined;
     budget := JUndefined; message := JUndefined |}.

(** ** Vocabulary of the further properties *)

Definition is_string (v : JsValue) : bool :=
  match v with
  | JString _ => true
  | _ => false
  end.

(** A white-space character, as [trim] sees it. *)
Definition blank (c : N) : Prop := isWhiteSpace c = true.

(** The number of ["@"] in a string. *)
Definition count_at (s : jsstring) : nat := length (List.filter (N.eqb 64) s).

Definition is_now (ev : Event) : bool :=
  match projT2 ev with
  | Now => true
  | _ => false
  end.

(** The message [sendNotificationEmail] hands to Resend. *)
Definition notificationMail (env : Env) (subject html : jsstring) : Email :=
  {| from := env_or env "RESEND_FROM_EMAIL" "Hopkins Concrete <noreply@webleadsnow.com>";
     to := [JString (env_or env "NOTIFICATION_EMAIL" "info@hopkinsconcretecontractors.com")];
     subject := subject;
     html := html |}.

(** The message [sendConfirmationEmail] hands to Resend. *)
Definition confirmationMail (env : Env) (email : JsValue) (subject html : jsstring)
  : Email :=
  {| from := env_or env "RESEND_FROM_EMAIL" "Hopkins Concrete <noreply@webleadsnow.com>";
     to := [email];
     subject := subject;
     html := html |}.

(** The request [pushToCRM] hands to [fetch]. *)
Definition crmRequest (env : Env) (data : Submission) (timestamp : jsstring) : FetchInit :=
  {| method := lit "POST";
     headers := crmHeaders env;
     body := crmPayload env data timestamp |}.

(** What both e-mail senders do once their message is built: send, log the
    result, read [result.data?.id]; report any exception. *)
Definition deliver (m : Email) (sent failed : string) : Prog (Completion SenderResult) :=
  try_catch
    (let*! result := perform (ResendSend m) in
     run! perform (Console Log [LText (lit sent); LValue result]) in
     let*! id := pure (result_id result) in
     ok (Sent id))%prog
    (report_failure failed).

(** Resend answered the message [m] with a value that is neither [null] nor
    [undefined]. *)
Definition send_answered {W} (world : World W) (m : Email) (w : W) : Prop :=
  exists v, fst (world _ (ResendSend m) w) = Normal v /\ nullish v = false.

(** The webhook answered the request, its body could be read, and the
    answer's [ok] flag is set. *)
Definition push_acknowledged {W} (world : World W) (url : jsstring) (init : FetchInit)
    (w : W) : Prop :=
  exists resp w1 txt,
    world _ (Fetch url init) w = (Normal resp, w1)
    /\ fst (world _ (ResponseText resp) w1) = Normal txt
    /\ resp_ok resp = true.

(** The [fetch] calls a run of [pushToCRM] makes under [env]. *)
Definition expected_fetches (env : Env) (data : Submission) (timestamp : jsstring)
  : list Event :=
  match env_truthy env "CRM_WEBHOOK_URL" with
  | Some url => [event (Fetch url (crmRequest env data timestamp))]
  | None => []
  end.

(** The record destructured from [object_service_body]. *)
Definition object_service : Submission :=
  {| name := str "Jane Doe"; phone := str "6124733196";
     email := str "jane@example.com";
     service := JObject [ (lit "toString", JNumber (lit "1")) ];
     address := JUndefined; zipcode := JUndefined; timeline := JUndefined;
     budget := JUndefined; message := JUndefined |}.

(** ** Start-up *)

(** [const PORT = process.env.PORT || 3000] *)
Definition PORT (env : Env) : JsValue :=
  match env_truthy env "PORT" with
  | Some v => JString v
  | None => JNumber (lit "3000")
  end.

(** [process.env.KEY ? "✓ set" : "✗ MISSING"] (U+2713, U+2717) *)
Definition setOrMissing (env : Env) (key : string) : JsValue :=
  match env_truthy env key with
  | Some _ => JString ([10003] ++ lit " set")
  | None => JString ([10007] ++ lit " MISSING")
  end.

(** The five template literals of the [app.listen] callback; the first opens
    with U+2705. *)
Definition startupLines (env : Env) : list (list Part) :=
  [ [ Units [9989]; Lit " Hopkins Concrete form backend running on port ";
      Sub (PORT env) ];
    [ Lit "   Resend API key: "; Sub (setOrMissing env "RESEND_API_KEY") ];
    [ Lit "   CRM webhook:    "; Sub (setOrMissing env "CRM_WEBHOOK_URL") ];
    [ Lit "   CRM API key:    "; Sub (setOrMissing env "CRM_API_KEY") ];
    [ Lit "   Notification:   ";
      Sub (match env_truthy env "NOTIFICATION_EMAIL" with
           | Some v => JString v
           | None => JString (lit "(default)")
           end) ] ].

(** [console.log] of each template, in order. *)
Fixpoint logAll (lines : list (list Part)) : Prog (Completion unit) :=
  match lines with
  | [] => ok tt
  | parts :: rest =>
      (let*! line := pure (render parts) in
       run! perform (Console Log [LText line]) in
       logAll rest)%prog
  end.

(** The callback passed to [app.listen(PORT, ...)]. *)
Definition onListening (env : Env) : Prog (Completion unit) :=
  logAll (startupLines env).

(** A variable is configured when it is set and not empty. *)
Definition configured (env : Env) (key : string) : bool :=
  match env !! key with
  | Some (_ :: _) => true
  | _ => false
  end.

(** Two environments that differ at most in the values of the three secrets
    (the Resend key, the webhook URL, the CRM key), not in whether each is
    configured. *)
Definition same_but_secrets (env env' : Env) : Prop :=
  env_truthy env "PORT" = env_truthy env' "PORT"
  /\ env_truthy env "NOTIFICATION_EMAIL" = env_truthy env' "NOTIFICATION_EMAIL"
  /\ configured env "RESEND_API_KEY" = configured env' "RESEND_API_KEY"
  /\ configured env "CRM_WEBHOOK_URL" = configured env' "CRM_WEBHOOK_URL"
  /\ configured env "CRM_API_KEY" = configured env' "CRM_API_KEY".

Definition env_one : Env :=
  <[ "RESEND_API_KEY"%string := lit "re_123" ]>
    (<[ "CRM_API_KEY"%string := lit "first" ]> ∅).

Definition env_two : Env :=
  <[ "RESEND_API_KEY"%string := lit "re_999" ]>
    (<[ "CRM_API_KEY"%string := lit "second" ]> ∅).

(** The webhook is configured at [url] and acknowledged the push. *)
Definition crm_acknowledged {W} (world : World W) (env : Env) (data : Submission)
    (timestamp : jsstring) (w : W) : Prop :=
  exists url,
    env_truthy env "CRM_WEBHOOK_URL" = Some url
    /\ push_acknowledged world url (crmRequest env data timestamp) w.

(** A world scripted by three flags: Resend accepts the notification (the
    message whose subject opens with U+1F3D7) when [b1] and rejects it
    otherwise, the webhook answers with [ok = b2], and Resend accepts any
    other message when [b3]. *)
Definition scripted (b1 b2 b3 : bool) : World unit :=
  fun X e w =>
    match e in Eff X return X * unit with
    | Now => (lit "2026-11-03T12:00:00.000Z", w)
    | ResendSend m =>
        (if (if match subject m with c :: _ => c =? 55356 | [] => false end
             then b1 else b3)
         then Normal (JObject [ (lit "data", JObject [ (lit "id", str "msg_1") ]) ])
         else Throw (mkError (lit "rejected")),
         w)
    | Fetch _ _ =>
        (Normal {| resp_ok := b2; resp_status := if b2 then 200 else 500 |}, w)
    | ResponseText _ => (Normal [], w)
    | Console _ _ => (tt, w)
    end.

(** ** Regular expressions: the matcher decides the language *)

Lemma nullable_matches r : nullable r = true -> matches r [].
Proof.
  induction r; simpl; intros H; try discriminate.
  - constructor.
  - apply andb_true_iff in H as [H1 H2].
    change (@nil N) with (@nil N ++ []). constructor; auto.
  - apply orb_true_iff in H as [H | H]; [apply MAltL | apply MAltR]; auto.
  - constructor.
Qed.

Lemma matches_nil_nullable r s : matches r s -> s = [] -> nullable r = true.
Proof.
  induction 1; intros E; simpl; auto; try discriminate.
  - apply app_eq_nil in E as [E1 E2]. rewrite IHmatches1, IHmatches2; auto.
  - rewrite IHmatches; auto.
  - rewrite IHmatches; auto using orb_true_r.
Qed.

Lemma deriv_sound c r : forall s, matches (deriv c r) s -> matches r (c :: s).
Proof.
  induction r; simpl; intros s H.
  - inversion H.
  - inversion H.
  - destruct (p c) eqn:E; inversion H; subst. now constructor.
  - destruct (nullable r1) eqn:E.
    + inversion H as [ | | | ? ? ? HL | ? ? ? HR | | ]; subst.
      * inversion HL; subst.
        change (c :: s1 ++ s2) with ((c :: s1) ++ s2). constructor; auto.
      * change (c :: s) with ([] ++ c :: s).
        constructor; auto using nullable_matches.
    + inversion H; subst.
      change (c :: s1 ++ s2) with ((c :: s1) ++ s2). constructor; auto.
  - inversion H; subst; [apply MAltL | apply MAltR]; auto.
  - inversion H; subst.
    change (c :: s1 ++ s2) with ((c :: s1) ++ s2). constructor; auto.
Qed.

Lemma deriv_complete c r s : matches r (c :: s) -> matches (deriv c r) s.
Proof.
  intros H. remember (c :: s) as cs eqn:E. revert s E.
  induction H as [ | p c0 Hp | r1 r2 s1 s2 H1 IH1 H2 IH2 | r1 r2 s0 H1 IH1
                 | r1 r2 s0 H2 IH2 | r0 | r0 s1 s2 H1 IH1 H2 IH2 ];
    intros s E; simpl.
  - discriminate.
  - injection E as -> <-. rewrite Hp. constructor.
  - destruct s1 as [ | c1 s1'].
    + simpl in E. subst s2.
      rewrite (matches_nil_nullable r1 [] H1 eq_refl).
      apply MAltR. auto.
    + simpl in E. injection E as -> <-.
      destruct (nullable r1).
      * apply MAltL. constructor; auto.
      * constructor; auto.
  - apply MAltL; auto.
  - apply MAltR; auto.
  - discriminate.
  - destruct s1 as [ | c1 s1'].
    + simpl in E. apply (IH2 s E).
    + simpl in E. injection E as -> <-. constructor; auto.
Qed.

Lemma full_match_spec s : forall r, full_match r s = true <-> matches r s.
Proof.
  induction s as [ | c s IH]; intros r; simpl.
  - split; [apply nullable_matches | intros H; eapply matches_nil_nullable; eauto].
  - rewrite IH. split; [apply deriv_sound | apply deriv_complete].
Qed.

Lemma matches_seq r1 r2 s :
  matches (Seq r1 r2) s <->
  exists s1 s2, s = s1 ++ s2 /\ matches r1 s1 /\ matches r2 s2.
Proof.
  split.
  - intros H. inversion H; subst. eauto.
  - intros (s1 & s2 & -> & H1 & H2). constructor; auto.
Qed.

Lemma matches_class p s :
  matches (Class p) s <-> exists c, s = [c] /\ p c = true.
Proof.
  split.
  - intros H. inversion H; subst. eauto.
  - intros (c & -> & H). constructor; auto.
Qed.

Lemma matches_star_class p s :
  matches (Star (Class p)) s <-> Forall (fun c => p c = true) s.
Proof.
  split.
  - intros H. remember (Star (Class p)) as r eqn:E.
    induction H; try discriminate.
    + constructor.
    + injection E as ->. inversion H; subst. simpl. constructor; auto.
  - induction 1 as [ | c s Hc _ IH].
    + constructor.
    + change (c :: s) with ([c] ++ s). constructor; auto. now constructor.
Qed.

Lemma matches_plus_class p s :
  matches (Plus (Class p)) s <-> s <> [] /\ Forall (fun c => p c = true) s.
Proof.
  unfold Plus. rewrite matches_seq. split.
  - intros (s1 & s2 & -> & H1 & H2).
    apply matches_class in H1 as (c & -> & Hc).
    apply matches_star_class in H2. split; [discriminate | constructor; auto].
  - intros [Hne H]. destruct H as [ | c s Hc H]; [congruence | ].
    exists [c], s. split; [reflexivity | ].
    split; [now constructor | now apply matches_star_class].
Qed.

Lemma notSpaceNorAt_plain c : notSpaceNorAt c = true <-> plain c.
Proof.
  unfold notSpaceNorAt, plain.
  rewrite negb_true_iff, orb_false_iff, N.eqb_neq. tauto.
Qed.

Lemma matches_plain_run s :
  matches (Plus (Class notSpaceNorAt)) s <-> plain_run s.
Proof.
  rewrite matches_plus_class. unfold plain_run.
  assert (Forall (fun c => notSpaceNorAt c = true) s <-> Forall plain s) as ->.
  { split; intros H; (eapply Forall_impl; [exact H | ]);
      intros c; apply notSpaceNorAt_plain. }
  tauto.
Qed.

(** The source's pattern accepts exactly the strings of shape [x@y.z]. *)
Lemma emailPattern_shape s :
  full_match emailPattern s = true <-> email_shape s.
Proof.
  rewrite full_match_spec. unfold emailPattern, email_shape. split.
  - intros H.
    apply matches_seq in H as (x & s1 & -> & Hx & H).
    apply matches_seq in H as (at_ & s2 & -> & Hat & H).
    apply matches_seq in H as (y & s3 & -> & Hy & H).
    apply matches_seq in H as (dot & z & -> & Hdot & Hz).
    apply matches_class in Hat as (c1 & -> & E1). apply N.eqb_eq in E1 as <-.
    apply matches_class in Hdot as (c2 & -> & E2). apply N.eqb_eq in E2 as <-.
    exists x, y, z. rewrite <- !matches_plain_run. auto.
  - intros (x & y & z & -> & Hx & Hy & Hz).
    rewrite <- matches_plain_run in Hx, Hy, Hz.
    repeat (constructor; auto).
Qed.

(** ** The validation block *)

Lemma falsy_string t : truthy (JString t) = false -> t = [].
Proof.
  simpl. unfold jsstring_eqb. intros H. apply negb_false_iff in H.
  now apply bool_decide_eq_true in H.
Qed.

Lemma truthy_stringy v :
  stringy v = true -> truthy v = true -> exists t, v = JString t /\ t <> [].
Proof.
  unfold stringy. intros H T. rewrite T in H. simpl in H.
  destruct v; try discriminate. exists s. split; [reflexivity | ].
  intros ->. discriminate.
Qed.

Lemma email_shape_nil : ~ email_shape [].
Proof. intros (x & y & z & E & _). destruct x; discriminate. Qed.

Lemma name_check_spec v :
  stringy v = true ->
  exists c, name_check v = Normal c /\ (c = true <-> name_rule_fails v).
Proof.
  intros S. unfold name_check. destruct (truthy v) eqn:T; simpl.
  - destruct (truthy_stringy v S T) as (t & -> & _). simpl.
    eexists; split; [reflexivity | ]. apply Nat.ltb_lt.
  - exists true. split; [reflexivity | ]. split; [intros _ | reflexivity].
    destruct v; simpl; auto.
    rewrite (falsy_string s T). simpl. lia.
Qed.

Lemma phone_check_spec v :
  stringy v = true ->
  exists c, phone_check v = Normal c /\ (c = true <-> phone_rule_fails v).
Proof.
  intros S. unfold phone_check. destruct (truthy v) eqn:T; simpl.
  - destruct (truthy_stringy v S T) as (t & -> & _). simpl.
    eexists; split; [reflexivity | ]. apply Nat.ltb_lt.
  - exists true. split; [reflexivity | ]. split; [intros _ | reflexivity].
    destruct v; simpl; auto.
    rewrite (falsy_string s T). simpl. lia.
Qed.

Lemma email_check_spec v :
  stringy v = true ->
  exists c, email_check v = Normal c /\ (c = true <-> email_rule_fails v).
Proof.
  intros S. unfold email_check. destruct (truthy v) eqn:T; simpl.
  - destruct (truthy_stringy v S T) as (t & -> & _). simpl.
    eexists; split; [reflexivity | ].
    rewrite negb_true_iff, <- not_true_iff_false, emailPattern_shape. tauto.
  - exists true. split; [reflexivity | ]. split; [intros _ | reflexivity].
    destruct v; simpl; auto.
    rewrite (falsy_string s T). apply email_shape_nil.
Qed.

Lemma validate_checks s c1 c2 c3 :
  name_check (name s) = Normal c1 ->
  phone_check (phone s) = Normal c2 ->
  email_check (email s) = Normal c3 ->
  validate s = Normal (errors_of c1 c2 c3 (service_check (service s))).
Proof. intros H1 H2 H3. unfold validate. rewrite H1, H2, H3. reflexivity. Qed.

Lemma errors_of_spec c1 c2 c3 c4 :
  sublist (errors_of c1 c2 c3 c4) all_messages
  /\ (In (lit "name is required") (errors_of c1 c2 c3 c4) <-> c1 = true)
  /\ (In (lit "valid phone is required") (errors_of c1 c2 c3 c4) <-> c2 = true)
  /\ (In (lit "valid email is required") (errors_of c1 c2 c3 c4) <-> c3 = true)
  /\ (In (lit "service is required") (errors_of c1 c2 c3 c4) <-> c4 = true).
Proof.
  split.
  - destruct c1, c2, c3, c4; vm_compute;
      repeat first [ apply sublist_nil | apply sublist_skip | apply sublist_cons ].
  - destruct c1, c2, c3, c4; vm_compute; intuition discriminate.
Qed.

(** Every message of the error list stands for its rule. *)
Lemma validate_stringy s :
  stringy (name s) = true -> stringy (phone s) = true -> stringy (email s) = true ->
  exists errors,
    validate s = Normal errors
    /\ sublist errors all_messages
    /\ (In (lit "name is required") errors <-> name_rule_fails (name s))
    /\ (In (lit "valid phone is required") errors <-> phone_rule_fails (phone s))
    /\ (In (lit "valid email is required") errors <-> email_rule_fails (email s))
    /\ (In (lit "service is required") errors <-> service_rule_fails (service s)).
Proof.
  intros Sn Sp Se.
  destruct (name_check_spec _ Sn) as (c1 & E1 & R1).
  destruct (phone_check_spec _ Sp) as (c2 & E2 & R2).
  destruct (email_check_spec _ Se) as (c3 & E3 & R3).
  exists (errors_of c1 c2 c3 (service_check (service s))).
  split; [now apply validate_checks | ].
  destruct (errors_of_spec c1 c2 c3 (service_check (service s)))
    as (Hsub & I1 & I2 & I3 & I4).
  rewrite I1, I2, I3, I4, R1, R2, R3.
  unfold service_check, service_rule_fails. rewrite negb_true_iff. tauto.
Qed.

(** C3: on every raw record whose name, phone and email are each
    falsy or a string, the validation block yields an error list that is a
    subsequence of the four fixed messages in their fixed order and holds a
    message exactly when its rule fails; it performs no call to the outside. *)
Theorem validator_contract (s : Submission) :
  stringy (name s) = true -> stringy (phone s) = true -> stringy (email s) = true ->
  exists errors,
    validate s = Normal errors
    /\ sublist errors all_messages
    /\ (In (lit "name is required") errors <-> name_rule_fails (name s))
    /\ (In (lit "valid phone is required") errors <-> phone_rule_fails (phone s))
    /\ (In (lit "valid email is required") errors <-> email_rule_fails (email s))
    /\ (In (lit "service is required") errors <-> service_rule_fails (service s))
    /\ (forall W (world : World W) (w : W),
           run world (pure (validate s)) w = (Normal errors, [], w)).
Proof.
  intros Sn Sp Se.
  destruct (validate_stringy s Sn Sp Se) as (errors & E & H1 & H2 & H3 & H4 & H5).
  exists errors. repeat (split; [assumption | ]).
  intros W world w. rewrite E. reflexivity.
Qed.

Lemma validator_contract_witness :
  exists errors,
    validate (with_phone (str "555-1234") jane) = Normal errors
    /\ sublist errors all_messages
    /\ (In (lit "name is required") errors
        <-> name_rule_fails (name (with_phone (str "555-1234") jane)))
    /\ (In (lit "valid phone is required") errors
        <-> phone_rule_fails (phone (with_phone (str "555-1234") jane)))
    /\ (In (lit "valid email is required") errors
        <-> email_rule_fails (email (with_phone (str "555-1234") jane)))
    /\ (In (lit "service is required") errors
        <-> service_rule_fails (service (with_phone (str "555-1234") jane)))
    /\ (forall W (world : World W) (w : W),
           run world (pure (validate (with_phone (str "555-1234") jane))) w
           = (Normal errors, [], w)).
Proof.
  apply (validator_contract (with_phone (str "555-1234") jane)); reflexivity.
Defined.

(** C3, counterexample: a phone sent as the JSON number 6124733196 makes the
    validation block throw; it yields no error list at all, and the request
    is answered 500. *)
Lemma validator_throws_on_numeric_phone :
  validate (with_phone (JNumber (lit "6124733196")) jane)
  = Throw (TypeError "phone.replace is not a function")
  /\ ~ (exists errors,
          validate (with_phone (JNumber (lit "6124733196")) jane) = Normal errors)
  /\ post_api_quote ∅ numeric_phone_body
     = Vis (Console Error [ LText (lit "Error processing quote request:");
                            LError (TypeError "phone.replace is not a function") ])
           (fun _ => Ret server_error).
Proof.
  split; [reflexivity | ]. split; [ | reflexivity].
  intros [errors H]. discriminate.
Qed.

(** C4: when the name is falsy (undefined, null, false, 0, the empty string)
    or a string whose trimmed length is below 2, and phone and email are each
    falsy or a string, the error list holds ["name is required"]. *)
Theorem name_rule_reports (s : Submission) :
  stringy (phone s) = true -> stringy (email s) = true ->
  truthy (name s) = false
  \/ (exists t, name s = JString t /\ (length (trim t) < 2)%nat) ->
  exists errors,
    validate s = Normal errors /\ In (lit "name is required") errors.
Proof.
  intros Sp Se Hn.
  assert (stringy (name s) = true /\ name_rule_fails (name s)) as [Sn Hf].
  { destruct Hn as [F | (t & E & Hlen)].
    - unfold stringy. rewrite F. split; [reflexivity | ].
      destruct (name s); simpl; auto.
      rewrite (falsy_string _ F). simpl. lia.
    - rewrite E. split; [apply orb_true_r | exact Hlen]. }
  destruct (validate_stringy s Sn Sp Se) as (errors & E & _ & H1 & _).
  exists errors. split; [exact E | now apply H1].
Qed.

Lemma name_rule_reports_witness :
  (exists errors,
      validate (with_name JNull jane) = Normal errors
      /\ In (lit "name is required") errors)
  /\ (exists errors,
         validate (with_name (str " J ") jane) = Normal errors
         /\ In (lit "name is required") errors).
Proof.
  split.
  - apply (name_rule_reports (with_name JNull jane));
      [reflexivity | reflexivity | left; reflexivity].
  - apply (name_rule_reports (with_name (str " J ") jane));
      [reflexivity | reflexivity | ].
    right. exists (lit " J "). split; [reflexivity | vm_compute; lia].
Defined.

(** C4, counterexample: a name that is not a string but truthy (the JSON
    number 42) yields no error list; the handler logs the [TypeError] and
    answers 500. *)
Lemma name_rule_misses_non_string :
  destructure numeric_name_body = Normal (with_name (JNumber (lit "42")) jane)
  /\ validate (with_name (JNumber (lit "42")) jane)
     = Throw (TypeError "name.trim is not a function")
  /\ ~ (exists errors,
          validate (with_name (JNumber (lit "42")) jane) = Normal errors)
  /\ post_api_quote ∅ numeric_name_body
     = Vis (Console Error [ LText (lit "Error processing quote request:");
                            LError (TypeError "name.trim is not a function") ])
           (fun _ => Ret server_error).
Proof.
  split; [reflexivity | ]. split; [reflexivity | ]. split; [ | reflexivity].
  intros [errors H]. discriminate.
Qed.









(** ** Rendering templates over text fields *)

Lemma ToString_text v : text_or_absent v = true -> exists t, ToString v = Normal t.
Proof. destruct v; simpl; intros H; try discriminate; eauto. Qed.

Lemma or_else_text v d :
  text_or_absent v = true -> text_or_absent (or_else v (JString d)) = true.
Proof. intros H. unfold or_else. destruct (truthy v); auto. Qed.

Lemma render_text parts : Forall text_part parts -> exists t, render parts = Normal t.
Proof.
  induction 1 as [ | p parts Hp _ (t & IH)]; simpl.
  - eauto.
  - destruct p as [l | u | v]; rewrite ?IH; simpl; eauto.
    destruct (ToString_text v Hp) as (tv & ->). simpl. eauto.
Qed.

Lemma well_typed_fields s :
  well_typed s = true ->
  text_or_absent (name s) = true /\ text_or_absent (phone s) = true
  /\ text_or_absent (email s) = true /\ text_or_absent (service s) = true
  /\ text_or_absent (address s) = true /\ text_or_absent (zipcode s) = true
  /\ text_or_absent (timeline s) = true /\ text_or_absent (budget s) = true
  /\ text_or_absent (message s) = true.
Proof. unfold well_typed. rewrite !andb_true_iff. tauto. Qed.

Lemma notificationHtml_renders s ts :
  well_typed s = true -> exists h, render (notificationHtml s ts) = Normal h.
Proof.
  intros H. apply well_typed_fields in H as (?&?&?&?&?&?&?&?&?).
  apply render_text. unfold notificationHtml.
  repeat constructor; simpl; auto using or_else_text.
Qed.

Lemma notificationSubject_renders s :
  well_typed s = true -> exists t, render (notificationSubject s) = Normal t.
Proof.
  intros H. apply well_typed_fields in H as (?&?&?&?&?&?&?&?&?).
  apply render_text. unfold notificationSubject. repeat constructor; simpl; auto.
Qed.

Lemma confirmationHtml_renders s :
  well_typed s = true ->
  exists h, render (confirmationHtml (name s) (service s)) = Normal h.
Proof.
  intros H. apply well_typed_fields in H as (?&?&?&?&?&?&?&?&?).
  apply render_text. unfold confirmationHtml. repeat constructor; simpl; auto.
Qed.

Lemma requestLogLine_renders s ts :
  well_typed s = true ->
  exists line, render (requestLogLine ts (name s) (email s) (service s)) = Normal line.
Proof.
  intros H. apply well_typed_fields in H as (?&?&?&?&?&?&?&?&?).
  apply render_text. unfold requestLogLine. repeat constructor; simpl; auto.
Qed.

(** ** Running programs *)

Lemma existsb_send_head {X} (e : Eff X) t t' :
  is_send (event e) = true -> existsb is_send ((event e :: t) ++ t') = true.
Proof. intros H. simpl. rewrite H. reflexivity. Qed.

Lemma bindT_pure {A B} (a : A) (f : A -> Prog (Completion B)) :
  bindT (pure (Normal a)) f = f a.
Proof. reflexivity. Qed.

Section Runs.
Context {W : Type} (world : World W).

Lemma run_bind {A B} (p : Prog A) (f : A -> Prog B) :
  forall w,
    run world (bind p f) w
    = let '(a, t1, w1) := run world p w in
      let '(b, t2, w2) := run world (f a) w1 in
      (b, t1 ++ t2, w2).
Proof.
  induction p as [a | X e k IH]; intros w; simpl.
  - destruct (run world (f a) w) as [[b t2] w2]. reflexivity.
  - destruct (world X e w) as [x w1]. rewrite IH.
    destruct (run world (k x) w1) as [[a t1] w2].
    destruct (run world (f a) w2) as [[b t2] w3]. reflexivity.
Qed.

Lemma run_perform {X} (e : Eff X) w :
  run world (perform e) w = (fst (world X e w), [event e], snd (world X e w)).
Proof. simpl. destruct (world X e w). reflexivity. Qed.

Lemma run_vis_head {A X} (e : Eff X) (k : X -> Prog A) w a t w' :
  run world (Vis e k) w = (a, t, w') -> exists t', t = event e :: t'.
Proof.
  simpl. destruct (world X e w) as [x w1].
  destruct (run world (k x) w1) as [[a' t'] w2].
  intros [= _ <- _]. eauto.
Qed.

(** A sender's [try]/[catch] returns normally whatever its body does, and
    its trace extends the body's. *)
Lemma try_catch_returns (body : Prog (Completion SenderResult)) (label : string) w :
  exists c tb wb r t w',
    run world body w = (c, tb, wb)
    /\ run world (try_catch body (report_failure label)) w = (Normal r, tb ++ t, w').
Proof.
  unfold try_catch. rewrite run_bind.
  destruct (run world body w) as [[c tb] wb].
  exists c, tb, wb.
  destruct c as [a | err].
  - exists a, [], wb. split; reflexivity.
  - unfold report_failure. rewrite run_bind, run_perform. simpl.
    eexists _, _, _. split; reflexivity.
Qed.

(** Case analysis on a sender's [try] block in the goal. *)
Ltac caught label w c tb wb r t w' Eb E :=
  match goal with
  | |- context [try_catch ?body _] =>
      destruct (try_catch_returns body label w)
        as (c & tb & wb & r & t & w' & Eb & E)
  end.

(** ** The senders return normally *)

Lemma sendNotificationEmail_run env s ts w :
  well_typed s = true ->
  exists r t w',
    run world (sendNotificationEmail env s ts) w = (Normal r, t, w')
    /\ existsb is_send t = true.
Proof.
  intros H.
  destruct (notificationHtml_renders s ts H) as (h & Hh).
  destruct (notificationSubject_renders s H) as (sj & Hsj).
  unfold sendNotificationEmail. rewrite Hh, Hsj.
  caught "Failed to send notification email:" w c tb wb r t w' Eb E.
  exists r, (tb ++ t), w'. split; [exact E | ].
  apply run_vis_head in Eb as (tb' & ->).
  now apply existsb_send_head.
Qed.

Lemma sendConfirmationEmail_run env s w :
  well_typed s = true ->
  exists r t w',
    run world (sendConfirmationEmail env (name s) (email s) (service s)) w
    = (Normal r, t, w')
    /\ existsb is_send t = true.
Proof.
  intros H.
  destruct (confirmationHtml_renders s H) as (h & Hh).
  unfold sendConfirmationEmail. rewrite Hh.
  caught "Failed to send confirmation email:" w c tb wb r t w' Eb E.
  exists r, (tb ++ t), w'. split; [exact E | ].
  apply run_vis_head in Eb as (tb' & ->).
  now apply existsb_send_head.
Qed.

Lemma pushToCRM_run env s ts w :
  exists r t w',
    run world (pushToCRM env s ts) w = (Normal r, t, w') /\ t <> [].
Proof.
  unfold pushToCRM. destruct (env_truthy env "CRM_WEBHOOK_URL") as [url | ].
  - caught "Failed to push to CRM:" w c tb wb r t w' Eb E.
    exists r, (tb ++ t), w'. split; [exact E | ].
    apply run_vis_head in Eb as (tb' & ->). discriminate.
  - rewrite run_bind, run_perform. simpl.
    eexists _, _, _. split; [reflexivity | discriminate].
Qed.

(** ** The endpoint *)

Lemma handle_valid_run env req_body s w :
  destructure req_body = Normal s -> valid_submission s ->
  fans_out env req_body s world w.
Proof.
  intros Hd [Hwt Hv]. unfold fans_out.
  destruct (world _ Now w) as [ts w1] eqn:ENow.
  destruct (sendNotificationEmail_run env s ts w1 Hwt) as (r1 & t1 & w2 & E1 & S1).
  destruct (pushToCRM_run env s ts w2) as (r2 & t2 & w3 & E2 & N2).
  destruct (sendConfirmationEmail_run env s w3 Hwt) as (r3 & t3 & w4 & E3 & S3).
  destruct (requestLogLine_renders s ts Hwt) as (line & Hl).
  exists ts, w1, r1, t1, w2, r2, t2, w3, r3, t3, w4, line,
    (snd (world _ (Console Log [LText line]) w4)).
  repeat (split; [reflexivity || assumption | ]).
  unfold post_api_quote, handle_submission.
  rewrite Hd, bindT_pure, Hv, bindT_pure.
  cbn [length Nat.ltb Nat.leb].
  rewrite !run_bind, run_perform, ENow. cbn [fst snd].
  unfold bindT.
  rewrite !run_bind, E1. cbn beta iota.
  rewrite run_bind, E2. cbn beta iota.
  rewrite run_bind, E3. cbn beta iota.
  rewrite Hl. unfold pure, ok. cbn [bind].
  rewrite run_bind, run_perform. cbn [run fst snd].
  rewrite !app_nil_r. reflexivity.
Qed.

End Runs.

(** C1: on a valid submission (text fields that pass validation), whatever
    the world answers to each call, the three senders are run one after the
    other, each returns normally (a rejected send or push becomes
    [success = false]), both e-mails are handed to Resend, and the response
    is 200 with [success: true] and the three [success] flags as
    [email_sent], [crm_pushed], [confirmation_sent]. *)
Theorem partial_failure_is_reported {W} (world : World W) env req_body s w :
  destructure req_body = Normal s -> valid_submission s ->
  fans_out env req_body s world w
  /\ forall response t w',
       run world (post_api_quote env req_body) w = (response, t, w') ->
       status response = 200 /\ body_success (json response) = true.
Proof.
  intros Hd Hv. pose proof (handle_valid_run world env req_body s w Hd Hv) as H.
  split; [exact H | ].
  destruct H as (ts & w1 & r1 & t1 & w2 & r2 & t2 & w3 & r3 & t3 & w4 & line & w5 & H).
  destruct H as (_ & _ & _ & _ & _ & _ & _ & E).
  intros response t w'. rewrite E. intros [= <- _ _]. split; reflexivity.
Qed.

Lemma partial_failure_is_reported_witness :
  fans_out ∅ jane_body jane first_send_fails 0%nat
  /\ forall response t w',
       run first_send_fails (post_api_quote ∅ jane_body) 0%nat = (response, t, w') ->
       status response = 200 /\ body_success (json response) = true.
Proof.
  apply (partial_failure_is_reported first_send_fails ∅ jane_body jane 0%nat);
    [reflexivity | split; reflexivity].
Defined.

(** In that world the rejected notification does not stop the confirmation. *)
Example first_send_fails_details :
  fst (fst (run first_send_fails (post_api_quote crm_env jane_body) 0%nat))
  = accepted {| email_sent := false; crm_pushed := true; confirmation_sent := true |}.
Proof. vm_compute. reflexivity. Qed.

(** Outside the data model: a service sent as the object [{"toString": 1}]
    passes validation, both e-mail templates fail inside their senders, and
    the request log line throws in the handler itself: the answer is 500. *)
Example object_service_is_a_server_error :
  fst (fst (run first_send_fails (post_api_quote ∅ object_service_body) 0%nat))
  = server_error.
Proof. vm_compute. reflexivity. Qed.

(** C2: when validation yields a non-empty error list, the handler is the
    single answer 400 [{ success: false, errors }]: it performs no call at
    all, so none of the senders runs. *)
Theorem invalid_submission_is_rejected env req_body s errors :
  destructure req_body = Normal s -> validate s = Normal errors -> errors <> [] ->
  post_api_quote env req_body = Ret {| status := 400; json := Rejected errors |}
  /\ body_success (Rejected errors) = false
  /\ forall W (world : World W) (w : W),
       run world (post_api_quote env req_body) w
       = ({| status := 400; json := Rejected errors |}, [], w).
Proof.
  intros Hd Hv Hne.
  assert (post_api_quote env req_body = Ret {| status := 400; json := Rejected errors |})
    as E.
  { unfold post_api_quote, handle_submission.
    rewrite Hd, bindT_pure, Hv, bindT_pure.
    destruct errors; [congruence | reflexivity]. }
  split; [exact E | ]. split; [reflexivity | ].
  intros W world w. rewrite E. reflexivity.
Qed.

Lemma invalid_submission_is_rejected_witness :
  post_api_quote ∅ (JObject [ (lit "name", str "Jane Doe") ])
  = Ret {| status := 400;
           json := Rejected [ lit "valid phone is required";
                              lit "valid email is required";
                              lit "service is required" ] |}
  /\ body_success (Rejected [ lit "valid phone is required";
                              lit "valid email is required";
                              lit "service is required" ]) = false
  /\ forall W (world : World W) (w : W),
       run world (post_api_quote ∅ (JObject [ (lit "name", str "Jane Doe") ])) w
       = ({| status := 400;
             json := Rejected [ lit "valid phone is required";
                                lit "valid email is required";
                                lit "service is required" ] |}, [], w).
Proof.
  apply (invalid_submission_is_rejected ∅ (JObject [ (lit "name", str "Jane Doe") ])
           {| name := str "Jane Doe"; phone := JUndefined; email := JUndefined;
              service := JUndefined; address := JUndefined; zipcode := JUndefined;
              timeline := JUndefined; budget := JUndefined; message := JUndefined |});
    [reflexivity | reflexivity | discriminate].
Defined.

(** ** The CRM forwarder *)

Lemma env_truthy_unconfigured env :
  webhook_unconfigured env -> env_truthy env "CRM_WEBHOOK_URL" = None.
Proof. unfold env_truthy. intros [-> | ->]; reflexivity. Qed.

(** C7: without a webhook URL, [pushToCRM] only writes its warning and
    returns [{ success: false, error: "CRM_WEBHOOK_URL not configured" }]:
    no [fetch] is issued; a valid submission is still answered 200, with
    [crm_pushed = false]. *)
Theorem crm_unconfigured_is_skipped {W} (world : World W) env req_body s w :
  destructure req_body = Normal s -> valid_submission s ->
  webhook_unconfigured env ->
  (forall ts,
      pushToCRM env s ts
      = Vis (Console Warn [LText skip_warning])
            (fun _ => Ret (Normal (Failed (lit "CRM_WEBHOOK_URL not configured")))))
  /\ (forall ts w0, exists t w1,
         run world (pushToCRM env s ts) w0
         = (Normal (Failed (lit "CRM_WEBHOOK_URL not configured")), t, w1)
         /\ existsb is_fetch t = false)
  /\ exists d t w',
       run world (post_api_quote env req_body) w = (accepted d, t, w')
       /\ crm_pushed d = false.
Proof.
  intros Hd Hv Hu.
  assert (forall ts,
             pushToCRM env s ts
             = Vis (Console Warn [LText skip_warning])
                 (fun _ => Ret (Normal (Failed (lit "CRM_WEBHOOK_URL not configured")))))
    as Hpush.
  { intros ts. unfold pushToCRM. rewrite (env_truthy_unconfigured env Hu). reflexivity. }
  split; [exact Hpush | ]. split.
  - intros ts w0. rewrite Hpush. simpl.
    destruct (world _ (Console Warn [LText skip_warning]) w0) as [[] w1].
    exists [event (Console Warn [LText skip_warning])], w1. split; reflexivity.
  - destruct (handle_valid_run world env req_body s w Hd Hv)
      as (ts & w1 & r1 & t1 & w2 & r2 & t2 & w3 & r3 & t3 & w4 & line & w5 & H).
    destruct H as (_ & _ & E2 & _ & _ & _ & _ & E).
    eexists _, _, _. split; [exact E | ]. simpl.
    rewrite Hpush in E2. simpl in E2.
    destruct (world _ (Console Warn [LText skip_warning]) w2) as [[] w2'].
    injection E2 as <- _ _. reflexivity.
Qed.

Lemma crm_unconfigured_is_skipped_witness :
  (forall ts,
      pushToCRM ∅ jane ts
      = Vis (Console Warn [LText skip_warning])
            (fun _ => Ret (Normal (Failed (lit "CRM_WEBHOOK_URL not configured")))))
  /\ (forall ts w0, exists t w1,
         run first_send_fails (pushToCRM ∅ jane ts) w0
         = (Normal (Failed (lit "CRM_WEBHOOK_URL not configured")), t, w1)
         /\ existsb is_fetch t = false)
  /\ exists d t w',
       run first_send_fails (post_api_quote ∅ jane_body) 0%nat = (accepted d, t, w')
       /\ crm_pushed d = false.
Proof.
  apply (crm_unconfigured_is_skipped first_send_fails ∅ jane_body jane 0%nat);
    [reflexivity | split; reflexivity | left; reflexivity].
Defined.

Lemma Normal_inj {A} (a b : A) : Normal a = Normal b -> a = b.
Proof. congruence. Qed.

Lemma render_app a b :
  render (a ++ b) = cbind (render a) (fun x => cbind (render b) (fun y => Normal (x ++ y))).
Proof.
  induction a as [ | p a IH]; simpl.
  - destruct (render b); reflexivity.
  - destruct p as [l | u | v]; simpl; rewrite ?IH.
    + destruct (render a); simpl; [ | reflexivity].
      destruct (render b); simpl; [ | reflexivity]. now rewrite app_assoc.
    + destruct (render a); simpl; [ | reflexivity].
      destruct (render b); simpl; [ | reflexivity]. now rewrite app_assoc.
    + destruct (ToString v); simpl; [ | reflexivity].
      destruct (render a); simpl; [ | reflexivity].
      destruct (render b); simpl; [ | reflexivity]. now rewrite app_assoc.
Qed.

Lemma occurs_between a ck v ck1 c opening closing :
  drop (length ck - length opening) ck = opening ->
  take (length closing) ck1 = closing ->
  occurs_in (opening ++ v ++ closing) (a ++ (ck ++ v ++ ck1) ++ c).
Proof.
  intros H1 H2.
  exists (a ++ take (length ck - length opening) ck), (drop (length closing) ck1 ++ c).
  rewrite <- (take_drop (length ck - length opening) ck) at 1.
  rewrite <- (take_drop (length closing) ck1) at 1.
  rewrite H1, H2. rewrite <- !app_assoc. reflexivity.
Qed.

Lemma or_else_display f s :
  text_or_absent (field f s) = true ->
  ToString (or_else (field f s) (JString (lit (placeholder f)))) = Normal (display f s).
Proof.
  unfold display. destruct (field f s) as [ | | | | [ | c t] | | ]; try discriminate; reflexivity.
Qed.

Lemma notification_cell s ts f :
  well_typed s = true ->
  exists h, render (notificationHtml s ts) = Normal h /\ occurs_in (cell f (display f s)) h.
Proof.
  intros Hwt. destruct (notificationHtml_renders s ts Hwt) as (h & Hh).
  exists h. split; [exact Hh | ].
  pose proof (well_typed_fields s Hwt) as (_&_&_&_&Ha&Hz&Ht&Hb&Hm).
  set (i := match f with Address => 12 | Zipcode => 14 | Timeline => 16 | Budget => 18 | Message => 20 end%nat).
  assert (notificationHtml s ts
          = take i (notificationHtml s ts)
              ++ take 3 (drop i (notificationHtml s ts))
              ++ drop (i + 3) (notificationHtml s ts)) as E.
  { rewrite <- drop_drop, !take_drop. reflexivity. }
  rewrite E, !render_app in Hh.
  destruct (render (take i (notificationHtml s ts))) as [a | ]; [ | discriminate].
  destruct (render (drop (i + 3) (notificationHtml s ts))) as [c | ];
    [ | simpl in Hh; destruct (render (take 3 (drop i (notificationHtml s ts)))); discriminate].
  destruct f; subst i; unfold notificationHtml in Hh;
    cbn [firstn skipn render cbind] in Hh.
  1: pose proof (or_else_display Address s Ha) as D.
  2: pose proof (or_else_display Zipcode s Hz) as D.
  3: pose proof (or_else_display Timeline s Ht) as D.
  4: pose proof (or_else_display Budget s Hb) as D.
  5: pose proof (or_else_display Message s Hm) as D.
  all: cbn [field placeholder] in D; rewrite D in Hh;
    cbn [cbind] in Hh; apply Normal_inj in Hh; rewrite <- Hh, app_nil_r;
    unfold cell; apply occurs_between; vm_compute; reflexivity.
Qed.

Lemma text_stringy v : text_or_absent v = true -> stringy v = true.
Proof. destruct v; try discriminate; intros _; try reflexivity. apply orb_true_r. Qed.

Lemma valid_required_text s :
  valid_submission s ->
  is_text (name s) /\ is_text (phone s) /\ is_text (email s) /\ is_text (service s).
Proof.
  intros [Hwt Hv].
  pose proof (well_typed_fields s Hwt) as (Hn & Hp & He & Hs & _).
  destruct (validate_stringy s (text_stringy _ Hn) (text_stringy _ Hp) (text_stringy _ He))
    as (errors & E & _ & I1 & I2 & I3 & I4).
  rewrite Hv in E. apply Normal_inj in E. subst errors. simpl in *.
  unfold is_text, service_rule_fails in *.
  repeat split.
  - destruct (name s); simpl in *; try tauto. eauto.
  - destruct (phone s); simpl in *; try tauto. eauto.
  - destruct (email s); simpl in *; try tauto. eauto.
  - destruct (service s); simpl in *; try discriminate; try tauto; eauto.
Qed.

Lemma or_else_optional v :
  text_or_absent v = true -> or_else v (JString []) = JString (optional_text v).
Proof.
  destruct v; try discriminate; intros _; try reflexivity.
  unfold or_else. destruct (truthy (JString s)) eqn:T; [reflexivity | ].
  now rewrite (falsy_string s T).
Qed.

Lemma form_identifier_spec env :
  env_or env "CRM_FORM_ID" "hopkins-concrete-quote" = form_identifier env.
Proof.
  unfold env_or, env_truthy, form_identifier.
  destruct (env !! "CRM_FORM_ID"%string) as [[ | c id] | ]; reflexivity.
Qed.

Lemma crmHeaders_content_type env :
  crmHeaders env !! "Content-Type"%string = Some (lit "application/json").
Proof.
  unfold crmHeaders. destruct (env_truthy env "CRM_API_KEY").
  - rewrite lookup_insert_ne by discriminate. apply lookup_singleton_eq.
  - apply lookup_singleton_eq.
Qed.

Lemma crmHeaders_api_key env key :
  crmHeaders env !! "X-API-Key"%string = Some key
  <-> env !! "CRM_API_KEY"%string = Some key /\ key <> [].
Proof.
  unfold crmHeaders, env_truthy.
  destruct (env !! "CRM_API_KEY"%string) as [k | ].
  - destruct (truthy (JString k)) eqn:T.
    + rewrite lookup_insert_eq. split.
      * intros [= ->]. split; [reflexivity | intros ->; discriminate].
      * intros [[= ->] _]. reflexivity.
    + rewrite lookup_singleton_ne by discriminate. split; [discriminate | ].
      intros [[= ->] Hne]. now apply falsy_string in T.
  - rewrite lookup_singleton_ne by discriminate.
    split; [discriminate | intros [? _]; discriminate].
Qed.

Lemma crmHeaders_names env h :
  is_Some (crmHeaders env !! h) -> h = "Content-Type"%string \/ h = "X-API-Key"%string.
Proof.
  unfold crmHeaders. destruct (env_truthy env "CRM_API_KEY").
  - rewrite lookup_insert. case_decide; [auto | ].
    rewrite lookup_singleton. case_decide; [auto | intros [? ?]; discriminate].
  - rewrite lookup_singleton. case_decide; [auto | intros [? ?]; discriminate].
Qed.

(** C8: with a webhook URL configured, the first call of [pushToCRM] on a
    valid submission is a [fetch] of that URL with method POST; its payload
    is flat (every value is text) and holds the form identifier (configured
    or default), the source tag ["website"], the submission fields with
    [zipcode] under the key [zip_code], the timestamp as [submitted_at] and
    the fixed source URL; its headers are [Content-Type: application/json]
    and, exactly when [CRM_API_KEY] is set and not empty, [X-API-Key]. *)
Theorem crm_request_shape env s ts url :
  valid_submission s ->
  env !! "CRM_WEBHOOK_URL"%string = Some url -> url <> [] ->
  exists init k,
    pushToCRM env s ts = Vis (Fetch url init) k
    /\ method init = lit "POST"
    /\ headers init !! "Content-Type"%string = Some (lit "application/json")
    /\ (forall key, headers init !! "X-API-Key"%string = Some key
                    <-> env !! "CRM_API_KEY"%string = Some key /\ key <> [])
    /\ (forall h, is_Some (headers init !! h)
                  -> h = "Content-Type"%string \/ h = "X-API-Key"%string)
    /\ map fst (body init) = payload_keys
    /\ Forall (fun kv => is_text (snd kv)) (body init)
    /\ payload_get "form_id" (body init) = Some (JString (form_identifier env))
    /\ payload_get "source" (body init) = Some (str "website")
    /\ payload_get "name" (body init) = Some (name s)
    /\ payload_get "email" (body init) = Some (email s)
    /\ payload_get "phone" (body init) = Some (phone s)
    /\ payload_get "service" (body init) = Some (service s)
    /\ payload_get "zipcode" (body init) = None
    /\ payload_get "zip_code" (body init) = Some (JString (optional_text (zipcode s)))
    /\ payload_get "address" (body init) = Some (JString (optional_text (address s)))
    /\ payload_get "timeline" (body init) = Some (JString (optional_text (timeline s)))
    /\ payload_get "budget" (body init) = Some (JString (optional_text (budget s)))
    /\ payload_get "message" (body init) = Some (JString (optional_text (message s)))
    /\ payload_get "submitted_at" (body init) = Some (JString ts)
    /\ payload_get "source_url" (body init)
       = Some (str "https://hopkinsconcretecontractors.com/contact-2/").
Proof.
  intros Hv Hurl Hne.
  destruct (valid_required_text s Hv) as ((n & Hn) & (p & Hp) & (e & He) & (v & Hs)).
  destruct Hv as [Hwt _].
  pose proof (well_typed_fields s Hwt) as (_ & _ & _ & _ & Ha & Hz & Ht & Hb & Hm).
  assert (env_truthy env "CRM_WEBHOOK_URL" = Some url) as Hcfg.
  { unfold env_truthy. rewrite Hurl.
    destruct (truthy (JString url)) eqn:T; [reflexivity | ].
    now apply falsy_string in T. }
  eexists _, _. split.
  { unfold pushToCRM. rewrite Hcfg. reflexivity. }
  cbn [method headers body].
  split; [reflexivity | ].
  split; [apply crmHeaders_content_type | ].
  split; [apply crmHeaders_api_key | ].
  split; [apply crmHeaders_names | ].
  unfold crmPayload.
  rewrite form_identifier_spec, !or_else_optional by assumption.
  split; [reflexivity | ].
  split.
  { rewrite Hn, Hp, He, Hs. repeat constructor; unfold is_text; simpl; eauto. }
  repeat split.
Qed.

Lemma crm_request_shape_witness :
  exists init k,
    pushToCRM crm_env jane (lit "2026-11-03T12:00:00.000Z")
    = Vis (Fetch (lit "https://crm.example/hook") init) k
    /\ method init = lit "POST"
    /\ headers init !! "Content-Type"%string = Some (lit "application/json")
    /\ (forall key, headers init !! "X-API-Key"%string = Some key
                    <-> crm_env !! "CRM_API_KEY"%string = Some key /\ key <> [])
    /\ (forall h, is_Some (headers init !! h)
                  -> h = "Content-Type"%string \/ h = "X-API-Key"%string)
    /\ map fst (body init) = payload_keys
    /\ Forall (fun kv => is_text (snd kv)) (body init)
    /\ payload_get "form_id" (body init) = Some (JString (form_identifier crm_env))
    /\ payload_get "source" (body init) = Some (str "website")
    /\ payload_get "name" (body init) = Some (name jane)
    /\ payload_get "email" (body init) = Some (email jane)
    /\ payload_get "phone" (body init) = Some (phone jane)
    /\ payload_get "service" (body init) = Some (service jane)
    /\ payload_get "zipcode" (body init) = None
    /\ payload_get "zip_code" (body init) = Some (JString (optional_text (zipcode jane)))
    /\ payload_get "address" (body init) = Some (JString (optional_text (address jane)))
    /\ payload_get "timeline" (body init) = Some (JString (optional_text (timeline jane)))
    /\ payload_get "budget" (body init) = Some (JString (optional_text (budget jane)))
    /\ payload_get "message" (body init) = Some (JString (optional_text (message jane)))
    /\ payload_get "submitted_at" (body init)
       = Some (JString (lit "2026-11-03T12:00:00.000Z"))
    /\ payload_get "source_url" (body init)
       = Some (str "https://hopkinsconcretecontractors.com/contact-2/").
Proof.
  apply (crm_request_shape crm_env jane (lit "2026-11-03T12:00:00.000Z")
           (lit "https://crm.example/hook"));
    [split; reflexivity | reflexivity | discriminate].
Defined.

Lemma name_check_passes n :
  (2 <= length (trim n))%nat -> name_check (JString n) = Normal false.
Proof.
  intros H. unfold name_check. destruct (truthy (JString n)) eqn:T; simpl.
  - f_equal. apply Nat.ltb_ge. exact H.
  - rewrite (falsy_string n T) in H. simpl in H. lia.
Qed.

Lemma phone_check_passes p :
  (10 <= length (stripNonDigits p))%nat -> phone_check (JString p) = Normal false.
Proof.
  intros H. unfold phone_check. destruct (truthy (JString p)) eqn:T; simpl.
  - f_equal. apply Nat.ltb_ge. exact H.
  - rewrite (falsy_string p T) in H. simpl in H. lia.
Qed.

Lemma email_check_passes e :
  email_shape e -> email_check (JString e) = Normal false.
Proof.
  intros H. unfold email_check. destruct (truthy (JString e)) eqn:T; simpl.
  - apply emailPattern_shape in H. rewrite H. reflexivity.
  - rewrite (falsy_string e T) in H. now apply email_shape_nil in H.
Qed.

Lemma service_check_passes v : v <> [] -> service_check (JString v) = false.
Proof.
  intros H. unfold service_check. simpl. unfold jsstring_eqb.
  rewrite negb_involutive. now apply bool_decide_eq_false.
Qed.

(** C9: a submission whose four required fields pass their rules and whose
    optional fields are all omitted passes validation, and the HTML handed
    to Resend shows ["Not provided"] for address and zip code,
    ["Not specified"] for timeline and budget, and ["No message provided"]
    for the message. *)
Theorem placeholders_for_omitted_fields env ts n p e v :
  (2 <= length (trim n))%nat -> (10 <= length (stripNonDigits p))%nat ->
  email_shape e -> v <> [] ->
  validate (required_only n p e v) = Normal []
  /\ exists h sj k,
       sendNotificationEmail env (required_only n p e v) ts
       = Vis (ResendSend
                {| from := env_or env "RESEND_FROM_EMAIL"
                             "Hopkins Concrete <noreply@webleadsnow.com>";
                   to := [JString (env_or env "NOTIFICATION_EMAIL"
                                     "info@hopkinsconcretecontractors.com")];
                   subject := sj;
                   html := h |}) k
       /\ render (notificationHtml (required_only n p e v) ts) = Normal h
       /\ occurs_in (cell Address (lit "Not provided")) h
       /\ occurs_in (cell Zipcode (lit "Not provided")) h
       /\ occurs_in (cell Timeline (lit "Not specified")) h
       /\ occurs_in (cell Budget (lit "Not specified")) h
       /\ occurs_in (cell Message (lit "No message provided")) h.
Proof.
  intros Hn Hp He Hv. set (s := required_only n p e v).
  assert (well_typed s = true) as Hwt by reflexivity.
  split.
  - rewrite (validate_checks s false false false).
    + simpl. rewrite (service_check_passes v Hv). reflexivity.
    + now apply name_check_passes.
    + now apply phone_check_passes.
    + now apply email_check_passes.
  - destruct (notificationHtml_renders s ts Hwt) as (h & Hh).
    destruct (notificationSubject_renders s Hwt) as (sj & Hsj).
    exists h, sj. eexists. split.
    { unfold sendNotificationEmail. rewrite Hh, Hsj. reflexivity. }
    split; [exact Hh | ].
    assert (forall f, occurs_in (cell f (lit (placeholder f))) h) as Hcell.
    { intros f. destruct (notification_cell s ts f Hwt) as (h' & Hh' & Hocc).
      rewrite Hh in Hh'. apply Normal_inj in Hh'. subst h'.
      destruct f; exact Hocc. }
    repeat split; [apply (Hcell Address) | apply (Hcell Zipcode) | apply (Hcell Timeline)
                   | apply (Hcell Budget) | apply (Hcell Message)].
Qed.

Lemma placeholders_for_omitted_fields_witness :
  validate jane = Normal []
  /\ exists h sj k,
       sendNotificationEmail ∅ jane (lit "2026-11-03T12:00:00.000Z")
       = Vis (ResendSend
                {| from := env_or ∅ "RESEND_FROM_EMAIL"
                             "Hopkins Concrete <noreply@webleadsnow.com>";
                   to := [JString (env_or ∅ "NOTIFICATION_EMAIL"
                                     "info@hopkinsconcretecontractors.com")];
                   subject := sj;
                   html := h |}) k
       /\ render (notificationHtml jane (lit "2026-11-03T12:00:00.000Z")) = Normal h
       /\ occurs_in (cell Address (lit "Not provided")) h
       /\ occurs_in (cell Zipcode (lit "Not provided")) h
       /\ occurs_in (cell Timeline (lit "Not specified")) h
       /\ occurs_in (cell Budget (lit "Not specified")) h
       /\ occurs_in (cell Message (lit "No message provided")) h.
Proof.
  apply (placeholders_for_omitted_fields ∅ (lit "2026-11-03T12:00:00.000Z")
           (lit "Jane Doe") (lit "6124733196") (lit "jane@example.com") (lit "Driveway")).
  - vm_compute. lia.
  - vm_compute. lia.
  - apply emailPattern_shape. reflexivity.
  - discriminate.
Defined.

Lemma well_typed_with_optional f v s :
  text_or_absent v = true -> well_typed s = true -> well_typed (with_optional f v s) = true.
Proof.
  intros Hv H. apply well_typed_fields in H as (?&?&?&?&?&?&?&?&?).
  unfold well_typed. destruct f; simpl; rewrite !andb_true_iff; tauto.
Qed.

(** C10: for a valid submission and any optional field, sending the field
    as the empty string or leaving it out gives the same notification body
    (and the same sender program) and the same CRM payload (and the same
    forwarder program); the e-mail shows the field's placeholder and the
    payload carries the empty string. *)
Theorem empty_optional_is_omitted env s ts f :
  valid_submission s ->
  render (notificationHtml (with_optional f (JString []) s) ts)
  = render (notificationHtml (with_optional f JUndefined s) ts)
  /\ sendNotificationEmail env (with_optional f (JString []) s) ts
     = sendNotificationEmail env (with_optional f JUndefined s) ts
  /\ crmPayload env (with_optional f (JString []) s) ts
     = crmPayload env (with_optional f JUndefined s) ts
  /\ pushToCRM env (with_optional f (JString []) s) ts
     = pushToCRM env (with_optional f JUndefined s) ts
  /\ (exists h,
         render (notificationHtml (with_optional f (JString []) s) ts) = Normal h
         /\ occurs_in (cell f (lit (placeholder f))) h)
  /\ payload_get (crm_key f) (crmPayload env (with_optional f (JString []) s) ts)
     = Some (JString []).
Proof.
  intros [Hwt _].
  assert (render (notificationHtml (with_optional f (JString []) s) ts)
          = render (notificationHtml (with_optional f JUndefined s) ts)) as Ehtml
    by (destruct f; reflexivity).
  assert (crmPayload env (with_optional f (JString []) s) ts
          = crmPayload env (with_optional f JUndefined s) ts) as Epay
    by (destruct f; reflexivity).
  split; [exact Ehtml | ].
  split; [unfold sendNotificationEmail; rewrite Ehtml; reflexivity | ].
  split; [exact Epay | ].
  split; [unfold pushToCRM; rewrite Epay; reflexivity | ].
  split.
  - destruct (notification_cell (with_optional f (JString []) s) ts f) as (h & Hh & Hocc).
    { now apply well_typed_with_optional. }
    exists h. split; [exact Hh | ].
    destruct f; exact Hocc.
  - destruct f; reflexivity.
Qed.

Lemma empty_optional_is_omitted_witness :
  render (notificationHtml (with_optional Zipcode (JString []) jane)
            (lit "2026-11-03T12:00:00.000Z"))
  = render (notificationHtml (with_optional Zipcode JUndefined jane)
              (lit "2026-11-03T12:00:00.000Z"))
  /\ sendNotificationEmail ∅ (with_optional Zipcode (JString []) jane)
       (lit "2026-11-03T12:00:00.000Z")
     = sendNotificationEmail ∅ (with_optional Zipcode JUndefined jane)
         (lit "2026-11-03T12:00:00.000Z")
  /\ crmPayload ∅ (with_optional Zipcode (JString []) jane)
       (lit "2026-11-03T12:00:00.000Z")
     = crmPayload ∅ (with_optional Zipcode JUndefined jane)
         (lit "2026-11-03T12:00:00.000Z")
  /\ pushToCRM ∅ (with_optional Zipcode (JString []) jane)
       (lit "2026-11-03T12:00:00.000Z")
     = pushToCRM ∅ (with_optional Zipcode JUndefined jane)
         (lit "2026-11-03T12:00:00.000Z")
  /\ (exists h,
         render (notificationHtml (with_optional Zipcode (JString []) jane)
                   (lit "2026-11-03T12:00:00.000Z")) = Normal h
         /\ occurs_in (cell Zipcode (lit (placeholder Zipcode))) h)
  /\ payload_get (crm_key Zipcode)
       (crmPayload ∅ (with_optional Zipcode (JString []) jane)
          (lit "2026-11-03T12:00:00.000Z"))
     = Some (JString []).
Proof.
  apply (empty_optional_is_omitted ∅ jane (lit "2026-11-03T12:00:00.000Z") Zipcode).
  split; reflexivity.
Defined.

(** ** The validation block on raw records *)

Lemma name_check_string t :
  name_check (JString t) = Normal (length (trim t) <? 2)%nat.
Proof.
  unfold name_check. destruct (truthy (JString t)) eqn:T; simpl; [reflexivity | ].
  now rewrite (falsy_string t T).
Qed.

Lemma phone_check_string t :
  phone_check (JString t) = Normal (length (stripNonDigits t) <? 10)%nat.
Proof.
  unfold phone_check. destruct (truthy (JString t)) eqn:T; simpl; [reflexivity | ].
  now rewrite (falsy_string t T).
Qed.

Lemma name_check_false v :
  name_check v = Normal false
  <-> exists n, v = JString n /\ (2 <= length (trim n))%nat.
Proof.
  split.
  - intros H. destruct v; try discriminate H;
      try (unfold name_check in H; simpl in H;
           match type of H with context [if ?b then _ else _] => destruct b end;
           discriminate H).
    rewrite name_check_string in H. apply Normal_inj in H.
    exists s. split; [reflexivity | now apply Nat.ltb_ge].
  - intros (n & -> & H). now apply name_check_passes.
Qed.

Lemma phone_check_false v :
  phone_check v = Normal false
  <-> exists p, v = JString p /\ (10 <= length (stripNonDigits p))%nat.
Proof.
  split.
  - intros H. destruct v; try discriminate H;
      try (unfold phone_check in H; simpl in H;
           match type of H with context [if ?b then _ else _] => destruct b end;
           discriminate H).
    rewrite phone_check_string in H. apply Normal_inj in H.
    exists s. split; [reflexivity | now apply Nat.ltb_ge].
  - intros (p & -> & H). now apply phone_check_passes.
Qed.

Lemma email_check_false v :
  email_check v = Normal false
  <-> truthy v = true /\ exists t, ToString v = Normal t /\ email_shape t.
Proof.
  unfold email_check, regex_test. destruct (truthy v); simpl.
  - destruct (ToString v) as [t | e]; simpl.
    + split.
      * intros H. apply Normal_inj in H. apply negb_false_iff in H.
        split; [reflexivity | ]. exists t. split; [reflexivity | ].
        now apply emailPattern_shape.
      * intros (_ & t' & E & Hs). apply Normal_inj in E. subst t'.
        apply emailPattern_shape in Hs. now rewrite Hs.
    + split; [discriminate | intros (_ & t & E & _); discriminate].
  - split; [discriminate | intros [E _]; discriminate].
Qed.

Lemma errors_of_nil c1 c2 c3 c4 :
  errors_of c1 c2 c3 c4 = [] <-> c1 = false /\ c2 = false /\ c3 = false /\ c4 = false.
Proof.
  destruct c1, c2, c3, c4; vm_compute; split;
    try discriminate; try tauto; intros (?&?&?&?); discriminate.
Qed.

(** X1: validation passes exactly when the name is a string of trimmed length
    at least 2, the phone is a string with at least 10 digits, the email is
    truthy and its string conversion has the shape [x@y.z], and the service
    is truthy. *)
Theorem validate_passes_iff (s : Submission) :
  validate s = Normal []
  <-> (exists n, name s = JString n /\ (2 <= length (trim n))%nat)
      /\ (exists p, phone s = JString p /\ (10 <= length (stripNonDigits p))%nat)
      /\ (truthy (email s) = true
          /\ exists t, ToString (email s) = Normal t /\ email_shape t)
      /\ truthy (service s) = true.
Proof.
  rewrite <- name_check_false, <- phone_check_false, <- email_check_false.
  unfold validate.
  destruct (name_check (name s)) as [c1 | e1]; simpl;
    [ | split; [discriminate | intros (? & _); discriminate]].
  destruct (phone_check (phone s)) as [c2 | e2]; simpl;
    [ | split; [discriminate | intros (_ & ? & _); discriminate]].
  destruct (email_check (email s)) as [c3 | e3]; simpl;
    [ | split; [discriminate | intros (_ & _ & ? & _); discriminate]].
  change (Normal (errors_of c1 c2 c3 (service_check (service s))) = Normal []
          <-> Normal c1 = Normal false /\ Normal c2 = Normal false
              /\ Normal c3 = Normal false /\ truthy (service s) = true).
  unfold service_check. split.
  - intros H. apply Normal_inj in H. apply errors_of_nil in H as (-> & -> & -> & H).
    apply negb_false_iff in H. auto.
  - intros (H1 & H2 & H3 & H4).
    apply Normal_inj in H1, H2, H3. subst. rewrite H4. reflexivity.
Qed.

Lemma name_check_throws v :
  (exists e, name_check v = Throw e) <-> stringy v = false.
Proof.
  unfold name_check, stringy. destruct (truthy v) eqn:T; simpl.
  - destruct v; simpl; split; intros H; try discriminate; eauto;
      destruct H; discriminate.
  - split; [intros [e H]; discriminate | discriminate].
Qed.

Lemma phone_check_throws v :
  (exists e, phone_check v = Throw e) <-> stringy v = false.
Proof.
  unfold phone_check, stringy. destruct (truthy v) eqn:T; simpl.
  - destruct v; simpl; split; intros H; try discriminate; eauto;
      destruct H; discriminate.
  - split; [intros [e H]; discriminate | discriminate].
Qed.

Lemma email_check_throws v :
  (exists e, email_check v = Throw e)
  <-> truthy v = true /\ exists e, ToString v = Throw e.
Proof.
  unfold email_check, regex_test. destruct (truthy v); simpl.
  - destruct (ToString v) as [t | e]; simpl.
    + split; [intros [e H]; discriminate | intros (_ & e & H); discriminate].
    + split; [intros _; eauto | intros _; eauto].
  - split; [intros [e H]; discriminate | intros [H _]; discriminate].
Qed.

Lemma not_throws {A} (c : Completion A) :
  ~ (exists e, c = Throw e) -> exists a, c = Normal a.
Proof. destruct c; [eauto | intros H; exfalso; eauto]. Qed.

(** X2: validation ends in a [TypeError] exactly when the name is truthy and
    not a string, or else the phone is, or else the email is truthy and has
    no string conversion. *)
Theorem validate_throws_iff (s : Submission) :
  (exists e, validate s = Throw e)
  <-> stringy (name s) = false
      \/ (stringy (name s) = true /\ stringy (phone s) = false)
      \/ (stringy (name s) = true /\ stringy (phone s) = true
          /\ truthy (email s) = true /\ exists e, ToString (email s) = Throw e).
Proof.
  rewrite <- (name_check_throws (name s)), <- (phone_check_throws (phone s)),
    <- (email_check_throws (email s)).
  unfold validate.
  destruct (stringy (name s)) eqn:Sn.
  - destruct (name_check_spec _ Sn) as (c1 & -> & _). simpl.
    destruct (stringy (phone s)) eqn:Sp.
    + destruct (phone_check_spec _ Sp) as (c2 & -> & _). simpl.
      destruct (email_check (email s)) as [c3 | e3]; simpl.
      * split; [intros [e H]; discriminate | ].
        intros [[e H] | [(_ & [e H]) | (_ & _ & [e H])]]; discriminate.
      * split; [intros _; right; right; eauto | intros _; eauto].
    + apply phone_check_throws in Sp as [e ->]. simpl.
      split; [intros _; right; left; eauto | intros _; eauto].
  - apply name_check_throws in Sn as [e ->]. simpl.
    split; [intros _; left; eauto | intros _; eauto].
Qed.

(** X3: a body that is neither [null] nor [undefined] and has none of the
    four required keys (an empty object, an array, a primitive) is answered
    400 with the four messages, and nothing else happens. *)
Theorem missing_required_fields env req_body :
  get req_body "name" = Normal JUndefined ->
  get req_body "phone" = Normal JUndefined ->
  get req_body "email" = Normal JUndefined ->
  get req_body "service" = Normal JUndefined ->
  post_api_quote env req_body = Ret {| status := 400; json := Rejected all_messages |}.
Proof.
  intros Hn Hp He Hs. unfold post_api_quote, handle_submission, destructure.
  rewrite Hn, Hp, He, Hs. destruct req_body; try discriminate Hn; reflexivity.
Qed.

Lemma missing_required_fields_witness :
  post_api_quote ∅ (JArray [str "Jane Doe"])
  = Ret {| status := 400; json := Rejected all_messages |}
  /\ post_api_quote ∅ (JObject [ (lit "message", str "call me") ])
     = Ret {| status := 400; json := Rejected all_messages |}.
Proof.
  split.
  - apply (missing_required_fields ∅ (JArray [str "Jane Doe"])); reflexivity.
  - apply (missing_required_fields ∅ (JObject [ (lit "message", str "call me") ]));
      reflexivity.
Defined.

(** X4: the phone rule looks at the digits only: two phones with the same
    digit-only form get the same verdict. *)
Theorem phone_rule_ignores_formatting (a b : jsstring) :
  stripNonDigits a = stripNonDigits b ->
  phone_check (JString a) = phone_check (JString b).
Proof. intros H. now rewrite !phone_check_string, H. Qed.

Lemma phone_rule_ignores_formatting_witness :
  phone_check (str "(612) 473-3196") = phone_check (str "612.473.3196 ext").
Proof.
  apply (phone_rule_ignores_formatting (lit "(612) 473-3196") (lit "612.473.3196 ext")).
  reflexivity.
Defined.

(** ** Trimming *)

Lemma trimStart_blank_app a s : Forall blank a -> trimStart (a ++ s) = trimStart s.
Proof.
  induction 1 as [ | c a Hc _ IH]; [reflexivity | ].
  simpl. rewrite Hc. exact IH.
Qed.

Lemma trimStart_blank a : Forall blank a -> trimStart a = [].
Proof.
  intros H. rewrite <- (app_nil_r a). now rewrite trimStart_blank_app.
Qed.

Lemma trimEnd_blank_app s b : Forall blank b -> trimEnd (s ++ b) = trimEnd s.
Proof.
  intros H. unfold trimEnd. rewrite rev_app_distr, trimStart_blank_app; [reflexivity | ].
  now apply Forall_rev.
Qed.

Lemma trim_blank_app_r s b : Forall blank b -> trim (s ++ b) = trim s.
Proof.
  intros H. unfold trim. induction s as [ | c s IH]; simpl.
  - now rewrite (trimStart_blank b H).
  - destruct (isWhiteSpace c); [exact IH | ].
    change (c :: s ++ b) with ((c :: s) ++ b). now apply trimEnd_blank_app.
Qed.

Lemma trim_padding a s b :
  Forall blank a -> Forall blank b -> trim (a ++ s ++ b) = trim s.
Proof.
  intros Ha Hb. rewrite <- (trim_blank_app_r s b Hb).
  unfold trim. now rewrite trimStart_blank_app.
Qed.

(** X5: white space around a name never changes the verdict of the name
    rule; only the trimmed text is measured. *)
Theorem name_rule_ignores_padding (a s b : jsstring) :
  Forall blank a -> Forall blank b ->
  name_check (JString (a ++ s ++ b)) = name_check (JString s).
Proof. intros Ha Hb. now rewrite !name_check_string, trim_padding. Qed.

Lemma name_rule_ignores_padding_witness :
  name_check (JString ([32; 9] ++ lit "J" ++ [160; 10]))
  = name_check (JString (lit "J")).
Proof.
  apply (name_rule_ignores_padding [32; 9] (lit "J") [160; 10]);
    repeat constructor.
Defined.

(** ** The email rule *)

Lemma plain_run_facts x :
  plain_run x ->
  List.filter (N.eqb 64) x = []
  /\ Forall (fun c => isWhiteSpace c = false) x /\ (1 <= length x)%nat.
Proof.
  intros [Hne H]. split; [ | split].
  - clear Hne. induction H as [ | c x [_ Hc] _ IH]; [reflexivity | ].
    cbn [List.filter]. destruct (N.eqb_spec 64 c) as [E | _]; [congruence | exact IH].
  - eapply Forall_impl; [exact H | ]. now intros c [Hw _].
  - destruct x; [congruence | simpl; lia].
Qed.

(** X6: an email string that passes the rule holds exactly one ["@"], no
    white space, and at least five code units. *)
Theorem accepted_email_facts (t : jsstring) :
  email_check (JString t) = Normal false ->
  count_at t = 1%nat
  /\ Forall (fun c => isWhiteSpace c = false) t
  /\ (5 <= length t)%nat.
Proof.
  intros H. apply email_check_false in H as (_ & t' & E & Hs).
  simpl in E. apply Normal_inj in E. subst t'.
  destruct Hs as (x & y & z & -> & Hx & Hy & Hz).
  apply plain_run_facts in Hx as (Fx & Wx & Lx).
  apply plain_run_facts in Hy as (Fy & Wy & Ly).
  apply plain_run_facts in Hz as (Fz & Wz & Lz).
  split; [ | split].
  - unfold count_at. rewrite !List.filter_app, Fx, Fy, Fz. reflexivity.
  - rewrite !Forall_app. repeat split; auto; repeat constructor.
  - rewrite !length_app. simpl. lia.
Qed.

Lemma accepted_email_facts_witness :
  count_at (lit "jane@example.com") = 1%nat
  /\ Forall (fun c => isWhiteSpace c = false) (lit "jane@example.com")
  /\ (5 <= length (lit "jane@example.com"))%nat.
Proof.
  apply (accepted_email_facts (lit "jane@example.com")). reflexivity.
Defined.

(** ** What each sender does *)

Lemma result_id_nullish v : nullish v = true -> exists e, result_id v = Throw e.
Proof. destruct v; try discriminate; intros _; simpl; eauto. Qed.

Lemma result_id_value v : nullish v = false -> exists id, result_id v = Normal id.
Proof.
  unfold result_id. destruct v; try discriminate; intros _; simpl; eauto.
  destruct (own_property (lit "data") props) as [d | ]; simpl; eauto.
  destruct d; simpl; eauto.
Qed.

Lemma notification_delivers env s ts h sj :
  render (notificationHtml s ts) = Normal h ->
  render (notificationSubject s) = Normal sj ->
  sendNotificationEmail env s ts
  = deliver (notificationMail env sj h) "Notification email sent:"
      "Failed to send notification email:".
Proof. intros Hh Hsj. unfold sendNotificationEmail. rewrite Hh, Hsj. reflexivity. Qed.

Lemma confirmation_delivers env nm em sv h :
  render (confirmationHtml nm sv) = Normal h ->
  exists sj,
    render confirmationSubject = Normal sj
    /\ sendConfirmationEmail env nm em sv
       = deliver (confirmationMail env em sj h) "Confirmation email sent to customer:"
           "Failed to send confirmation email:".
Proof.
  intros Hh. eexists. split; [reflexivity | ].
  unfold sendConfirmationEmail. rewrite Hh. reflexivity.
Qed.

Section Outcomes.
Context {W : Type} (world : World W).

Lemma deliver_run m sent failed w c t w' :
  run world (deliver m sent failed) w = (c, t, w') ->
  exists r,
    c = Normal r
    /\ List.filter is_send t = [event (ResendSend m)]
    /\ List.filter is_fetch t = []
    /\ List.filter is_now t = []
    /\ (success r = true <-> send_answered world m w).
Proof.
  unfold deliver, send_answered, try_catch, report_failure, bindT, perform, pure, ok.
  cbn [bind run].
  destruct (world _ (ResendSend m) w) as [[v | err] w1]; cbn [bind run fst].
  - destruct (world _ (Console Log [LText (lit sent); LValue v]) w1) as [[] w2].
    cbn [bind run].
    destruct (nullish v) eqn:Nv.
    + destruct (result_id_nullish v Nv) as [e ->]. cbn [bind run].
      destruct (world _ (Console Error [LText (lit failed); LError e]) w2) as [[] w3].
      cbn [bind run]. intros [= <- <- <-].
      eexists. split; [reflexivity | ]. repeat split; try discriminate.
      intros (v' & [= <-] & Hv). congruence.
    + destruct (result_id_value v Nv) as [id ->]. cbn [bind run].
      intros [= <- <- <-].
      eexists. split; [reflexivity | ]. repeat split; eauto.
  - destruct (world _ (Console Error [LText (lit failed); LError err]) w1) as [[] w2].
    cbn [bind run]. intros [= <- <- <-].
    eexists. split; [reflexivity | ]. repeat split; try discriminate.
    intros (v' & H & _). discriminate.
Qed.

Lemma push_run env s ts url w c t w' :
  env_truthy env "CRM_WEBHOOK_URL" = Some url ->
  run world (pushToCRM env s ts) w = (c, t, w') ->
  exists r,
    c = Normal r
    /\ List.filter is_fetch t = [event (Fetch url (crmRequest env s ts))]
    /\ List.filter is_send t = []
    /\ List.filter is_now t = []
    /\ (success r = true <-> push_acknowledged world url (crmRequest env s ts) w)
    /\ (forall resp w1 txt,
           world _ (Fetch url (crmRequest env s ts)) w = (Normal resp, w1) ->
           fst (world _ (ResponseText resp) w1) = Normal txt ->
           r = Pushed (resp_ok resp) (resp_status resp))
    /\ (forall resp w1 err,
           world _ (Fetch url (crmRequest env s ts)) w = (Normal resp, w1) ->
           fst (world _ (ResponseText resp) w1) = Throw err ->
           r = Failed (err_message err)).
Proof.
  intros Hurl. unfold pushToCRM. rewrite Hurl.
  fold (crmRequest env s ts).
  unfold push_acknowledged, try_catch, bindT, perform, pure, ok.
  cbn [bind run].
  destruct (world _ (Fetch url (crmRequest env s ts)) w) as [[resp | err] w1] eqn:Ef;
    cbn [bind run fst].
  - destruct (world _ (ResponseText resp) w1) as [[txt | err] w2] eqn:Et;
      cbn [bind run fst].
    + cbn [crmResponseLabel render cbind bind run].
      match goal with
      | |- context [world unit ?e w2] => destruct (world unit e w2) as [[] w3]
      end.
      cbn [bind run]. intros [= <- <- <-].
      eexists. split; [reflexivity | ]. repeat split; cbn [success].
      * intros Hok. exists resp, w1, txt. rewrite Et. auto.
      * intros (resp' & w1' & txt' & [= <- <-] & _ & Hok). exact Hok.
      * intros resp' w1' txt' [= <- <-] _. reflexivity.
      * intros resp' w1' err [= <- <-] H. rewrite Et in H. discriminate.
    + match goal with
      | |- context [world unit ?e w2] => destruct (world unit e w2) as [[] w3]
      end.
      cbn [bind run]. intros [= <- <- <-].
      eexists. split; [reflexivity | ]. repeat split; cbn [success]; try discriminate.
      * intros (resp' & w1' & txt' & [= <- <-] & H & _). rewrite Et in H. discriminate.
      * intros resp' w1' txt' [= <- <-] H. rewrite Et in H. discriminate.
      * intros resp' w1' err' [= <- <-] H. rewrite Et in H.
        cbn [fst] in H. now injection H as ->.
  - match goal with
    | |- context [world unit ?e w1] => destruct (world unit e w1) as [[] w2]
    end.
    cbn [bind run]. intros [= <- <- <-].
    eexists. split; [reflexivity | ]. repeat split; cbn [success]; try discriminate.
    intros (resp' & w1' & txt' & H & _). discriminate.
Qed.

Lemma push_skipped_run env s ts w c t w' :
  env_truthy env "CRM_WEBHOOK_URL" = None ->
  run world (pushToCRM env s ts) w = (c, t, w') ->
  c = Normal (Failed (lit "CRM_WEBHOOK_URL not configured"))
  /\ List.filter is_fetch t = [] /\ List.filter is_send t = []
  /\ List.filter is_now t = [].
Proof.
  intros Hurl. unfold pushToCRM. rewrite Hurl. cbn [bind run perform].
  match goal with
  | |- context [world unit ?e w] => destruct (world unit e w) as [[] w1]
  end.
  cbn [bind run ok]. intros [= <- <- <-]. repeat split.
Qed.

Lemma push_fetches env s ts w c t w' :
  run world (pushToCRM env s ts) w = (c, t, w') ->
  List.filter is_fetch t = expected_fetches env s ts
  /\ List.filter is_send t = [] /\ List.filter is_now t = [].
Proof.
  intros H. unfold expected_fetches.
  destruct (env_truthy env "CRM_WEBHOOK_URL") as [url | ] eqn:Hurl.
  - destruct (push_run env s ts url w c t w' Hurl H) as (r & _ & ? & ? & ? & _). auto.
  - destruct (push_skipped_run env s ts w c t w' Hurl H) as (_ & ? & ? & ?). auto.
Qed.

End Outcomes.

Lemma valid_raw_fields s :
  validate s = Normal [] ->
  (exists n, name s = JString n) /\ (exists p, phone s = JString p)
  /\ (exists t, ToString (email s) = Normal t).
Proof.
  unfold validate.
  destruct (name_check (name s)) as [c1 | ] eqn:E1; [ | discriminate].
  destruct (phone_check (phone s)) as [c2 | ] eqn:E2; [ | discriminate].
  destruct (email_check (email s)) as [c3 | ] eqn:E3; [ | discriminate].
  simpl. intros H. apply Normal_inj in H.
  change (errors_of c1 c2 c3 (service_check (service s)) = []) in H.
  apply errors_of_nil in H as (-> & -> & -> & _).
  apply name_check_false in E1 as (n & -> & _).
  apply phone_check_false in E2 as (p & -> & _).
  apply email_check_false in E3 as (_ & t & -> & _). repeat split; eauto.
Qed.

Lemma requestLogLine_service s ts :
  validate s = Normal [] ->
  (forall t, ToString (service s) = Normal t ->
             exists line,
               render (requestLogLine ts (name s) (email s) (service s)) = Normal line)
  /\ (forall e, ToString (service s) = Throw e ->
                render (requestLogLine ts (name s) (email s) (service s)) = Throw e).
Proof.
  intros Hv. destruct (valid_raw_fields s Hv) as ((n & Hn) & _ & (te & He)).
  unfold requestLogLine. rewrite Hn. cbn [render ToString cbind]. rewrite He.
  cbn [cbind]. split; intros x Hx; rewrite Hx; cbn [cbind]; eauto.
Qed.

Section Requests.
Context {W : Type} (world : World W).

Lemma sendNotificationEmail_returns env s ts w :
  exists r t w', run world (sendNotificationEmail env s ts) w = (Normal r, t, w').
Proof.
  unfold sendNotificationEmail.
  match goal with
  | |- context [try_catch ?body _] =>
      destruct (try_catch_returns world body "Failed to send notification email:" w)
        as (c & tb & wb & r & t & w' & _ & E)
  end.
  eauto.
Qed.

Lemma sendConfirmationEmail_returns env nm em sv w :
  exists r t w', run world (sendConfirmationEmail env nm em sv) w = (Normal r, t, w').
Proof.
  unfold sendConfirmationEmail.
  match goal with
  | |- context [try_catch ?body _] =>
      destruct (try_catch_returns world body "Failed to send confirmation email:" w)
        as (c & tb & wb & r & t & w' & _ & E)
  end.
  eauto.
Qed.

Lemma pushToCRM_returns env s ts w :
  exists r t w', run world (pushToCRM env s ts) w = (Normal r, t, w').
Proof. destruct (pushToCRM_run world env s ts w) as (r & t & w' & E & _). eauto. Qed.

(** The run of the accepted path on any record that passes validation. *)
Lemma accepted_run env s w :
  validate s = Normal [] ->
  exists ts w1 r1 t1 w2 r2 t2 w3 r3 t3 w4,
    world _ Now w = (ts, w1)
    /\ run world (sendNotificationEmail env s ts) w1 = (Normal r1, t1, w2)
    /\ run world (pushToCRM env s ts) w2 = (Normal r2, t2, w3)
    /\ run world (sendConfirmationEmail env (name s) (email s) (service s)) w3
       = (Normal r3, t3, w4)
    /\ (forall line,
           render (requestLogLine ts (name s) (email s) (service s)) = Normal line ->
           run world (handle_submission env s) w
           = (Normal (accepted {| email_sent := success r1;
                                  crm_pushed := success r2;
                                  confirmation_sent := success r3 |}),
              event Now :: t1 ++ t2 ++ t3 ++ [event (Console Log [LText line])],
              snd (world _ (Console Log [LText line]) w4)))
    /\ (forall e,
           render (requestLogLine ts (name s) (email s) (service s)) = Throw e ->
           run world (handle_submission env s) w
           = (Throw e, event Now :: t1 ++ t2 ++ t3, w4)).
Proof.
  intros Hv.
  destruct (world _ Now w) as [ts w1] eqn:ENow.
  destruct (sendNotificationEmail_returns env s ts w1) as (r1 & t1 & w2 & E1).
  destruct (pushToCRM_returns env s ts w2) as (r2 & t2 & w3 & E2).
  destruct (sendConfirmationEmail_returns env (name s) (email s) (service s) w3)
    as (r3 & t3 & w4 & E3).
  exists ts, w1, r1, t1, w2, r2, t2, w3, r3, t3, w4.
  repeat (split; [reflexivity || assumption | ]).
  assert (forall c,
             render (requestLogLine ts (name s) (email s) (service s)) = c ->
             run world (handle_submission env s) w
             = match c with
               | Normal line =>
                   (Normal (accepted {| email_sent := success r1;
                                        crm_pushed := success r2;
                                        confirmation_sent := success r3 |}),
                    event Now :: t1 ++ t2 ++ t3 ++ [event (Console Log [LText line])],
                    snd (world _ (Console Log [LText line]) w4))
               | Throw e => (Throw e, event Now :: t1 ++ t2 ++ t3, w4)
               end) as H.
  { intros c Hc. unfold handle_submission.
    rewrite Hv, bindT_pure. cbn [length Nat.ltb Nat.leb].
    rewrite run_bind, run_perform, ENow. cbn [fst snd].
    unfold bindT.
    rewrite run_bind, E1. cbn beta iota.
    rewrite run_bind, E2. cbn beta iota.
    rewrite run_bind, E3. cbn beta iota.
    rewrite Hc. unfold pure, ok. destruct c as [line | e]; cbn [bind].
    - rewrite run_bind, run_perform. cbn [run fst snd].
      rewrite !app_nil_r. reflexivity.
    - cbn [run]. rewrite !app_nil_r. reflexivity. }
  split; [intros line Hl; apply (H _ Hl) | intros e He; apply (H _ He)].
Qed.

Lemma post_api_quote_run env req_body s w c t w' :
  destructure req_body = Normal s ->
  run world (handle_submission env s) w = (c, t, w') ->
  run world (post_api_quote env req_body) w
  = match c with
    | Normal response => (response, t, w')
    | Throw err =>
        (server_error,
         t ++ [event (Console Error [ LText (lit "Error processing quote request:");
                                      LError err ])],
         snd (world _ (Console Error [ LText (lit "Error processing quote request:");
                                       LError err ]) w'))
    end.
Proof.
  intros Hd H. unfold post_api_quote. rewrite Hd, bindT_pure, run_bind, H.
  destruct c as [response | err].
  - cbn [run]. now rewrite app_nil_r.
  - rewrite run_bind, run_perform. cbn [run fst snd]. reflexivity.
Qed.

End Requests.

(** X7: none of the three senders lets an exception escape: on any record,
    in any configuration and whatever the world answers, each returns a
    result object. *)
Theorem senders_never_throw {W} (world : World W) env s ts nm em sv w :
  (exists r t w', run world (sendNotificationEmail env s ts) w = (Normal r, t, w'))
  /\ (exists r t w', run world (pushToCRM env s ts) w = (Normal r, t, w'))
  /\ (exists r t w',
         run world (sendConfirmationEmail env nm em sv) w = (Normal r, t, w')).
Proof.
  split; [apply sendNotificationEmail_returns | ].
  split; [apply pushToCRM_returns | apply sendConfirmationEmail_returns].
Qed.

(** X8: on text fields, [sendNotificationEmail] hands exactly one message to
    Resend (no retry), never calls [fetch], and reports success exactly when
    Resend answers with a value other than [null] and [undefined]; a
    rejection, or an answer without a value, is reported as a failure. *)
Theorem notification_outcome {W} (world : World W) env s ts w :
  well_typed s = true ->
  exists h sj r t w',
    render (notificationHtml s ts) = Normal h
    /\ render (notificationSubject s) = Normal sj
    /\ run world (sendNotificationEmail env s ts) w = (Normal r, t, w')
    /\ List.filter is_send t = [event (ResendSend (notificationMail env sj h))]
    /\ List.filter is_fetch t = []
    /\ (success r = true <-> send_answered world (notificationMail env sj h) w).
Proof.
  intros Hwt.
  destruct (notificationHtml_renders s ts Hwt) as (h & Hh).
  destruct (notificationSubject_renders s Hwt) as (sj & Hsj).
  destruct (sendNotificationEmail_returns world env s ts w) as (r & t & w' & E).
  exists h, sj, r, t, w'. repeat (split; [assumption | ]).
  rewrite (notification_delivers env s ts h sj Hh Hsj) in E.
  destruct (deliver_run world _ _ _ _ _ _ _ E) as (r' & [= <-] & ? & ? & _ & ?).
  auto.
Qed.

Lemma notification_outcome_witness :
  exists h sj r t w',
    render (notificationHtml jane (lit "2026-11-03T12:00:00.000Z")) = Normal h
    /\ render (notificationSubject jane) = Normal sj
    /\ run first_send_fails
         (sendNotificationEmail ∅ jane (lit "2026-11-03T12:00:00.000Z")) 1%nat
       = (Normal r, t, w')
    /\ List.filter is_send t = [event (ResendSend (notificationMail ∅ sj h))]
    /\ List.filter is_fetch t = []
    /\ (success r = true <-> send_answered first_send_fails (notificationMail ∅ sj h) 1%nat).
Proof.
  apply (notification_outcome first_send_fails ∅ jane (lit "2026-11-03T12:00:00.000Z")
           1%nat).
  reflexivity.
Defined.

(** X9: [sendConfirmationEmail] addresses exactly one message to the
    submitted email value, never calls [fetch], and reports success exactly
    when Resend answers with a value other than [null] and [undefined]. *)
Theorem confirmation_outcome {W} (world : World W) env s w :
  well_typed s = true ->
  exists h sj r t w',
    render (confirmationHtml (name s) (service s)) = Normal h
    /\ render confirmationSubject = Normal sj
    /\ run world (sendConfirmationEmail env (name s) (email s) (service s)) w
       = (Normal r, t, w')
    /\ List.filter is_send t
       = [event (ResendSend (confirmationMail env (email s) sj h))]
    /\ to (confirmationMail env (email s) sj h) = [email s]
    /\ List.filter is_fetch t = []
    /\ (success r = true
        <-> send_answered world (confirmationMail env (email s) sj h) w).
Proof.
  intros Hwt.
  destruct (confirmationHtml_renders s Hwt) as (h & Hh).
  destruct (confirmation_delivers env (name s) (email s) (service s) h Hh)
    as (sj & Hsj & Hd).
  destruct (sendConfirmationEmail_returns world env (name s) (email s) (service s) w)
    as (r & t & w' & E).
  exists h, sj, r, t, w'. repeat (split; [assumption | ]).
  rewrite Hd in E.
  destruct (deliver_run world _ _ _ _ _ _ _ E) as (r' & [= <-] & ? & ? & _ & ?).
  repeat split; auto; tauto.
Qed.

Lemma confirmation_outcome_witness :
  exists h sj r t w',
    render (confirmationHtml (name jane) (service jane)) = Normal h
    /\ render confirmationSubject = Normal sj
    /\ run first_send_fails
         (sendConfirmationEmail ∅ (name jane) (email jane) (service jane)) 0%nat
       = (Normal r, t, w')
    /\ List.filter is_send t
       = [event (ResendSend (confirmationMail ∅ (email jane) sj h))]
    /\ to (confirmationMail ∅ (email jane) sj h) = [email jane]
    /\ List.filter is_fetch t = []
    /\ (success r = true
        <-> send_answered first_send_fails (confirmationMail ∅ (email jane) sj h) 0%nat).
Proof.
  apply (confirmation_outcome first_send_fails ∅ jane 0%nat). reflexivity.
Defined.

Lemma env_truthy_configured env key v :
  env !! key = Some v -> v <> [] -> env_truthy env key = Some v.
Proof.
  intros H Hne. unfold env_truthy. rewrite H.
  destruct (truthy (JString v)) eqn:T; [reflexivity | ].
  now apply falsy_string in T.
Qed.

(** X10: with a webhook configured, [pushToCRM] issues exactly one [fetch]
    (no retry) and no e-mail; it reports success exactly when the webhook
    answers, the answer's body can be read and its [ok] flag is set, and it
    then carries the answer's status.  If reading the body fails, the push
    is reported as failed although the request was answered. *)
Theorem crm_push_outcome {W} (world : World W) env s ts url w :
  env !! "CRM_WEBHOOK_URL"%string = Some url -> url <> [] ->
  exists r t w',
    run world (pushToCRM env s ts) w = (Normal r, t, w')
    /\ List.filter is_fetch t = [event (Fetch url (crmRequest env s ts))]
    /\ List.filter is_send t = []
    /\ (success r = true <-> push_acknowledged world url (crmRequest env s ts) w)
    /\ (forall resp w1 txt,
           world _ (Fetch url (crmRequest env s ts)) w = (Normal resp, w1) ->
           fst (world _ (ResponseText resp) w1) = Normal txt ->
           r = Pushed (resp_ok resp) (resp_status resp))
    /\ (forall resp w1 err,
           world _ (Fetch url (crmRequest env s ts)) w = (Normal resp, w1) ->
           fst (world _ (ResponseText resp) w1) = Throw err ->
           r = Failed (err_message err)).
Proof.
  intros Hurl Hne. pose proof (env_truthy_configured env _ url Hurl Hne) as Hcfg.
  destruct (pushToCRM_returns world env s ts w) as (r & t & w' & E).
  exists r, t, w'. split; [exact E | ].
  destruct (push_run world env s ts url w _ _ _ Hcfg E)
    as (r' & [= <-] & ? & ? & _ & ? & ? & ?).
  auto.
Qed.

Lemma crm_push_outcome_witness :
  exists r t w',
    run first_send_fails (pushToCRM crm_env jane (lit "2026-11-03T12:00:00.000Z")) 0%nat
    = (Normal r, t, w')
    /\ List.filter is_fetch t
       = [event (Fetch (lit "https://crm.example/hook")
                   (crmRequest crm_env jane (lit "2026-11-03T12:00:00.000Z")))]
    /\ List.filter is_send t = []
    /\ (success r = true
        <-> push_acknowledged first_send_fails (lit "https://crm.example/hook")
              (crmRequest crm_env jane (lit "2026-11-03T12:00:00.000Z")) 0%nat)
    /\ (forall resp w1 txt,
           first_send_fails _
             (Fetch (lit "https://crm.example/hook")
                (crmRequest crm_env jane (lit "2026-11-03T12:00:00.000Z"))) 0%nat
           = (Normal resp, w1) ->
           fst (first_send_fails _ (ResponseText resp) w1) = Normal txt ->
           r = Pushed (resp_ok resp) (resp_status resp))
    /\ (forall resp w1 err,
           first_send_fails _
             (Fetch (lit "https://crm.example/hook")
                (crmRequest crm_env jane (lit "2026-11-03T12:00:00.000Z"))) 0%nat
           = (Normal resp, w1) ->
           fst (first_send_fails _ (ResponseText resp) w1) = Throw err ->
           r = Failed (err_message err)).
Proof.
  apply (crm_push_outcome first_send_fails crm_env jane (lit "2026-11-03T12:00:00.000Z")
           (lit "https://crm.example/hook") 0%nat);
    [reflexivity | discriminate].
Defined.

(** ** Whole requests *)

Lemma report_failure_run {W} (world : World W) label e w c t w' :
  run world (report_failure label e) w = (c, t, w') ->
  c = Normal (Failed (err_message e))
  /\ List.filter is_send t = [] /\ List.filter is_fetch t = []
  /\ List.filter is_now t = [].
Proof.
  unfold report_failure, perform, ok. cbn [bind run].
  match goal with
  | |- context [world unit ?ev w] => destruct (world unit ev w) as [[] w1]
  end.
  cbn [bind run]. intros [= <- <- <-]. repeat split.
Qed.

(** X11: a valid submission reads the clock once, hands Resend exactly two
    messages, the notification and then the confirmation addressed to the
    submitted email, and calls the webhook once if one is configured and
    never otherwise. *)
Theorem valid_request_deliveries {W} (world : World W) env req_body s w :
  destructure req_body = Normal s -> valid_submission s ->
  exists ts w1 h sj hc sc response t w',
    world _ Now w = (ts, w1)
    /\ render (notificationHtml s ts) = Normal h
    /\ render (notificationSubject s) = Normal sj
    /\ render (confirmationHtml (name s) (service s)) = Normal hc
    /\ render confirmationSubject = Normal sc
    /\ run world (post_api_quote env req_body) w = (response, t, w')
    /\ List.filter is_now t = [event Now]
    /\ List.filter is_send t
       = [ event (ResendSend (notificationMail env sj h));
           event (ResendSend (confirmationMail env (email s) sc hc)) ]
    /\ List.filter is_fetch t = expected_fetches env s ts.
Proof.
  intros Hd Hv.
  destruct (handle_valid_run world env req_body s w Hd Hv)
    as (ts & w1 & r1 & t1 & w2 & r2 & t2 & w3 & r3 & t3 & w4 & line & w5 & H).
  destruct H as (ENow & E1 & E2 & E3 & _ & _ & _ & E).
  destruct Hv as [Hwt _].
  destruct (notificationHtml_renders s ts Hwt) as (h & Hh).
  destruct (notificationSubject_renders s Hwt) as (sj & Hsj).
  destruct (confirmationHtml_renders s Hwt) as (hc & Hhc).
  destruct (confirmation_delivers env (name s) (email s) (service s) hc Hhc)
    as (sc & Hsc & Hd3).
  rewrite (notification_delivers env s ts h sj Hh Hsj) in E1.
  destruct (deliver_run world _ _ _ _ _ _ _ E1) as (_ & _ & S1 & F1 & N1 & _).
  destruct (push_fetches world env s ts _ _ _ _ E2) as (F2 & S2 & N2).
  rewrite Hd3 in E3.
  destruct (deliver_run world _ _ _ _ _ _ _ E3) as (_ & _ & S3 & F3 & N3 & _).
  exists ts, w1, h, sj, hc, sc. eexists _, _, _.
  repeat (split; [eassumption | ]).
  cbn [List.filter is_now is_send is_fetch event projT2].
  rewrite !List.filter_app, N1, N2, N3, S1, S2, S3, F1, F2, F3.
  cbn [List.filter is_now is_send is_fetch event projT2 app].
  rewrite app_nil_r. repeat split.
Qed.

Lemma valid_request_deliveries_witness :
  exists ts w1 h sj hc sc response t w',
    first_send_fails _ Now 0%nat = (ts, w1)
    /\ render (notificationHtml jane ts) = Normal h
    /\ render (notificationSubject jane) = Normal sj
    /\ render (confirmationHtml (name jane) (service jane)) = Normal hc
    /\ render confirmationSubject = Normal sc
    /\ run first_send_fails (post_api_quote crm_env jane_body) 0%nat = (response, t, w')
    /\ List.filter is_now t = [event Now]
    /\ List.filter is_send t
       = [ event (ResendSend (notificationMail crm_env sj h));
           event (ResendSend (confirmationMail crm_env (email jane) sc hc)) ]
    /\ List.filter is_fetch t = expected_fetches crm_env jane ts.
Proof.
  apply (valid_request_deliveries first_send_fails crm_env jane_body jane 0%nat);
    [reflexivity | split; reflexivity].
Defined.

(** X12: every request is answered in one of three ways, each with its exact
    cause: 400 with the error list when validation finds errors; 200 when
    validation passes and the service has a string conversion; otherwise the
    fixed 500 body, when the body cannot be destructured, validation throws,
    or the service of a passing record has no string conversion. *)
Theorem response_classification {W} (world : World W) env req_body w :
  (exists s errors,
      destructure req_body = Normal s /\ validate s = Normal errors /\ errors <> []
      /\ fst (fst (run world (post_api_quote env req_body) w))
         = {| status := 400; json := Rejected errors |})
  \/ (exists s d t,
         destructure req_body = Normal s /\ validate s = Normal []
         /\ ToString (service s) = Normal t
         /\ fst (fst (run world (post_api_quote env req_body) w)) = accepted d)
  \/ (fst (fst (run world (post_api_quote env req_body) w)) = server_error
      /\ ((exists e, destructure req_body = Throw e)
          \/ exists s,
               destructure req_body = Normal s
               /\ ((exists e, validate s = Throw e)
                   \/ (validate s = Normal []
                       /\ exists e, ToString (service s) = Throw e)))).
Proof.
  destruct (destructure req_body) as [s | e] eqn:Hd.
  - destruct (validate s) as [errors | e] eqn:Hv.
    + destruct errors as [ | m errors].
      * destruct (accepted_run world env s w Hv)
          as (ts & w1 & r1 & t1 & w2 & r2 & t2 & w3 & r3 & t3 & w4 & _ & _ & _ & _ & Hok & Hko).
        destruct (requestLogLine_service s ts Hv) as [Hline Hthrow].
        destruct (ToString (service s)) as [t | e] eqn:Hs.
        -- right; left. destruct (Hline t eq_refl) as (line & Hl).
           eexists s, _, t. repeat (split; [reflexivity || assumption | ]).
           rewrite (post_api_quote_run world env req_body s w _ _ _ Hd (Hok line Hl)).
           reflexivity.
        -- right; right.
           rewrite (post_api_quote_run world env req_body s w _ _ _ Hd
                      (Hko e (Hthrow e eq_refl))).
           split; [reflexivity | ]. right. exists s. split; [reflexivity | ]. eauto.
      * left. exists s, (m :: errors).
        repeat (split; [reflexivity || assumption || discriminate | ]).
        unfold post_api_quote, handle_submission.
        rewrite Hd, bindT_pure, Hv, bindT_pure. reflexivity.
    + right; right. split; [ | right; exists s; eauto].
      unfold post_api_quote, handle_submission.
      rewrite Hd, bindT_pure, Hv. cbn [bindT pure bind perform run].
      destruct (world _ _ w) as [[] w1]. reflexivity.
  - right; right. split; [ | left; eauto].
    unfold post_api_quote. rewrite Hd. cbn [bindT pure bind perform run].
    destruct (world _ _ w) as [[] w1]. reflexivity.
Qed.

Lemma service_throw_renders s ts e :
  validate s = Normal [] -> ToString (service s) = Throw e ->
  render (notificationHtml s ts) = Throw e
  /\ render (confirmationHtml (name s) (service s)) = Throw e.
Proof.
  intros Hv Hs.
  destruct (valid_raw_fields s Hv) as ((n & Hn) & (p & Hp) & (te & He)).
  unfold notificationHtml, confirmationHtml. rewrite Hn, Hp.
  cbn [render ToString cbind]. rewrite He, Hs. cbn [cbind]. split; reflexivity.
Qed.

(** X13: when a record passes validation but its service has no string
    conversion and a webhook is configured, the lead is posted to the CRM,
    no e-mail is handed to Resend, and the caller is answered 500. *)
Theorem lead_pushed_before_500 {W} (world : World W) env req_body s url e w :
  destructure req_body = Normal s -> validate s = Normal [] ->
  ToString (service s) = Throw e ->
  env !! "CRM_WEBHOOK_URL"%string = Some url -> url <> [] ->
  exists ts w1 t w',
    world _ Now w = (ts, w1)
    /\ run world (post_api_quote env req_body) w = (server_error, t, w')
    /\ List.filter is_fetch t = [event (Fetch url (crmRequest env s ts))]
    /\ List.filter is_send t = [].
Proof.
  intros Hd Hv Hs Hurl Hne.
  pose proof (env_truthy_configured env _ url Hurl Hne) as Hcfg.
  destruct (accepted_run world env s w Hv)
    as (ts & w1 & r1 & t1 & w2 & r2 & t2 & w3 & r3 & t3 & w4 & ENow & E1 & E2 & E3 & _ & Hko).
  destruct (requestLogLine_service s ts Hv) as [_ Hthrow].
  destruct (service_throw_renders s ts e Hv Hs) as [Hh Hhc].
  assert (sendNotificationEmail env s ts
          = report_failure "Failed to send notification email:" e) as D1.
  { unfold sendNotificationEmail. rewrite Hh. reflexivity. }
  assert (sendConfirmationEmail env (name s) (email s) (service s)
          = report_failure "Failed to send confirmation email:" e) as D3.
  { unfold sendConfirmationEmail. rewrite Hhc. reflexivity. }
  rewrite D1 in E1. rewrite D3 in E3.
  destruct (report_failure_run world _ _ _ _ _ _ E1) as (_ & S1 & F1 & _).
  destruct (report_failure_run world _ _ _ _ _ _ E3) as (_ & S3 & F3 & _).
  destruct (push_run world env s ts url _ _ _ _ Hcfg E2) as (_ & _ & F2 & S2 & _).
  exists ts, w1. eexists _, _. split; [exact ENow | ].
  rewrite (post_api_quote_run world env req_body s w _ _ _ Hd (Hko e (Hthrow e Hs))).
  split; [reflexivity | ].
  rewrite !(List.filter_app _ (event Now :: _)).
  cbn [List.filter is_send is_fetch event projT2].
  rewrite !List.filter_app, S1, S2, S3, F1, F2, F3.
  cbn [List.filter is_send is_fetch event projT2 app]. split; reflexivity.
Qed.

Lemma lead_pushed_before_500_witness :
  exists ts w1 t w',
    first_send_fails _ Now 0%nat = (ts, w1)
    /\ run first_send_fails (post_api_quote crm_env object_service_body) 0%nat
       = (server_error, t, w')
    /\ List.filter is_fetch t
       = [event (Fetch (lit "https://crm.example/hook")
                   (crmRequest crm_env object_service ts))]
    /\ List.filter is_send t = [].
Proof.
  apply (lead_pushed_before_500 first_send_fails crm_env object_service_body
           object_service (lit "https://crm.example/hook")
           (TypeError "Cannot convert object to primitive value") 0%nat);
    [reflexivity | reflexivity | reflexivity | reflexivity | discriminate].
Defined.

(** X14: a request whose body cannot be destructured, or on which validation
    throws, is answered 500 after a single [console.error]: the clock is not
    read and no sender runs. *)
Theorem malformed_request_delivers_nothing env req_body e :
  destructure req_body = Throw e
  \/ (exists s, destructure req_body = Normal s /\ validate s = Throw e) ->
  post_api_quote env req_body
  = Vis (Console Error [ LText (lit "Error processing quote request:"); LError e ])
        (fun _ => Ret server_error).
Proof.
  intros [Hd | (s & Hd & Hv)]; unfold post_api_quote, handle_submission; rewrite Hd.
  - reflexivity.
  - rewrite bindT_pure, Hv. reflexivity.
Qed.

Lemma malformed_request_delivers_nothing_witness :
  post_api_quote crm_env JUndefined
  = Vis (Console Error
           [ LText (lit "Error processing quote request:");
             LError (TypeError "Cannot destructure property 'name' of 'req.body' as it is undefined.") ])
        (fun _ => Ret server_error).
Proof.
  apply (malformed_request_delivers_nothing crm_env JUndefined
           (TypeError "Cannot destructure property 'name' of 'req.body' as it is undefined.")).
  left. reflexivity.
Defined.

(** X15: for a valid submission the three [details] flags tell what the
    collaborators answered: [email_sent] that Resend answered the
    notification with a value, [crm_pushed] that a webhook is configured and
    acknowledged the push, [confirmation_sent] that Resend answered the
    confirmation with a value; each is asked in the state the previous sender
    left. *)
Theorem details_reflect_answers {W} (world : World W) env req_body s w :
  destructure req_body = Normal s -> valid_submission s ->
  exists ts h sj hc sc w1 w2 w3 d t w',
    world _ Now w = (ts, w1)
    /\ render (notificationHtml s ts) = Normal h
    /\ render (notificationSubject s) = Normal sj
    /\ render (confirmationHtml (name s) (service s)) = Normal hc
    /\ render confirmationSubject = Normal sc
    /\ snd (run world (sendNotificationEmail env s ts) w1) = w2
    /\ snd (run world (pushToCRM env s ts) w2) = w3
    /\ run world (post_api_quote env req_body) w = (accepted d, t, w')
    /\ (email_sent d = true <-> send_answered world (notificationMail env sj h) w1)
    /\ (crm_pushed d = true <-> crm_acknowledged world env s ts w2)
    /\ (confirmation_sent d = true
        <-> send_answered world (confirmationMail env (email s) sc hc) w3).
Proof.
  intros Hd Hv.
  destruct (handle_valid_run world env req_body s w Hd Hv)
    as (ts & w1 & r1 & t1 & w2 & r2 & t2 & w3 & r3 & t3 & w4 & line & w5 & H).
  destruct H as (ENow & E1 & E2 & E3 & _ & _ & _ & E).
  destruct Hv as [Hwt _].
  destruct (notificationHtml_renders s ts Hwt) as (h & Hh).
  destruct (notificationSubject_renders s Hwt) as (sj & Hsj).
  destruct (confirmationHtml_renders s Hwt) as (hc & Hhc).
  destruct (confirmation_delivers env (name s) (email s) (service s) hc Hhc)
    as (sc & Hsc & Hd3).
  exists ts, h, sj, hc, sc, w1, w2, w3. eexists _, _, _.
  repeat (split; [eassumption | ]).
  split; [now rewrite E1 | ]. split; [now rewrite E2 | ].
  split; [exact E | ]. cbn [email_sent crm_pushed confirmation_sent].
  rewrite (notification_delivers env s ts h sj Hh Hsj) in E1.
  destruct (deliver_run world _ _ _ _ _ _ _ E1) as (r1' & [= <-] & _ & _ & _ & A1).
  rewrite Hd3 in E3.
  destruct (deliver_run world _ _ _ _ _ _ _ E3) as (r3' & [= <-] & _ & _ & _ & A3).
  split; [exact A1 | ]. split; [ | exact A3].
  unfold crm_acknowledged.
  destruct (env_truthy env "CRM_WEBHOOK_URL") as [url | ] eqn:Hurl.
  - destruct (push_run world env s ts url _ _ _ _ Hurl E2)
      as (r2' & [= <-] & _ & _ & _ & A2 & _).
    rewrite A2. split; [eauto | ]. now intros (url' & [= <-] & H).
  - destruct (push_skipped_run world env s ts _ _ _ _ Hurl E2) as ([= ->] & _).
    split; [discriminate | intros (url & H & _); discriminate].
Qed.

Lemma details_reflect_answers_witness :
  exists ts h sj hc sc w1 w2 w3 d t w',
    first_send_fails _ Now 0%nat = (ts, w1)
    /\ render (notificationHtml jane ts) = Normal h
    /\ render (notificationSubject jane) = Normal sj
    /\ render (confirmationHtml (name jane) (service jane)) = Normal hc
    /\ render confirmationSubject = Normal sc
    /\ snd (run first_send_fails (sendNotificationEmail crm_env jane ts) w1) = w2
    /\ snd (run first_send_fails (pushToCRM crm_env jane ts) w2) = w3
    /\ run first_send_fails (post_api_quote crm_env jane_body) 0%nat = (accepted d, t, w')
    /\ (email_sent d = true
        <-> send_answered first_send_fails (notificationMail crm_env sj h) w1)
    /\ (crm_pushed d = true <-> crm_acknowledged first_send_fails crm_env jane ts w2)
    /\ (confirmation_sent d = true
        <-> send_answered first_send_fails
              (confirmationMail crm_env (email jane) sc hc) w3).
Proof.
  apply (details_reflect_answers first_send_fails crm_env jane_body jane 0%nat);
    [reflexivity | split; reflexivity].
Defined.

(** X16: an optional field that is supplied (a non-empty text) reaches both
    destinations verbatim: it stands in its cell of the notification e-mail,
    neither escaped nor shortened, and under its key in the CRM payload. *)
Theorem supplied_optional_is_verbatim env s ts f c t :
  well_typed s = true -> field f s = JString (c :: t) ->
  (exists h,
      render (notificationHtml s ts) = Normal h /\ occurs_in (cell f (c :: t)) h)
  /\ payload_get (crm_key f) (crmPayload env s ts) = Some (JString (c :: t)).
Proof.
  intros Hwt Hf. split.
  - destruct (notification_cell s ts f Hwt) as (h & Hh & Hocc).
    exists h. split; [exact Hh | ]. unfold display in Hocc. now rewrite Hf in Hocc.
  - destruct f; cbn [field] in Hf; unfold crmPayload; rewrite Hf; reflexivity.
Qed.

Lemma supplied_optional_is_verbatim_witness :
  (exists h,
      render (notificationHtml (with_optional Message (str "<b>Call me</b>") jane)
                (lit "2026-11-03T12:00:00.000Z")) = Normal h
      /\ occurs_in (cell Message (lit "<b>Call me</b>")) h)
  /\ payload_get (crm_key Message)
       (crmPayload ∅ (with_optional Message (str "<b>Call me</b>") jane)
          (lit "2026-11-03T12:00:00.000Z"))
     = Some (JString (lit "<b>Call me</b>")).
Proof.
  apply (supplied_optional_is_verbatim ∅
           (with_optional Message (str "<b>Call me</b>") jane)
           (lit "2026-11-03T12:00:00.000Z") Message 60 (lit "b>Call me</b>"));
    reflexivity.
Defined.

(** ** Configuration *)

Lemma env_truthy_delete_empty (env : Env) k k' :
  env !! k = Some [] -> env_truthy (delete k env) k' = env_truthy env k'.
Proof.
  intros H. unfold env_truthy. destruct (decide (k = k')) as [<- | Hne].
  - rewrite lookup_delete_eq, H. reflexivity.
  - now rewrite lookup_delete_ne.
Qed.

(** X17: a variable set to the empty string counts as unset everywhere: the
    endpoint and the start-up log are the same programs as without it. *)
Theorem empty_variable_is_unset (env : Env) k :
  env !! k = Some [] ->
  (forall req_body, post_api_quote (delete k env) req_body = post_api_quote env req_body)
  /\ onListening (delete k env) = onListening env.
Proof.
  intros H. split.
  - intros req_body.
    unfold post_api_quote, handle_submission, sendNotificationEmail,
      sendConfirmationEmail, pushToCRM, crmPayload, crmHeaders, env_or.
    rewrite !(env_truthy_delete_empty env k _ H). reflexivity.
  - unfold onListening, startupLines, PORT, setOrMissing.
    rewrite !(env_truthy_delete_empty env k _ H). reflexivity.
Qed.

Lemma empty_variable_is_unset_witness :
  (forall req_body,
      post_api_quote (delete "CRM_WEBHOOK_URL"%string
                        (<[ "CRM_WEBHOOK_URL"%string := [] ]> crm_env)) req_body
      = post_api_quote (<[ "CRM_WEBHOOK_URL"%string := [] ]> crm_env) req_body)
  /\ onListening (delete "CRM_WEBHOOK_URL"%string
                    (<[ "CRM_WEBHOOK_URL"%string := [] ]> crm_env))
     = onListening (<[ "CRM_WEBHOOK_URL"%string := [] ]> crm_env).
Proof.
  apply (empty_variable_is_unset (<[ "CRM_WEBHOOK_URL"%string := [] ]> crm_env)
           "CRM_WEBHOOK_URL"%string).
  reflexivity.
Defined.

Lemma setOrMissing_configured env key :
  setOrMissing env key
  = if configured env key then JString ([10003] ++ lit " set")
    else JString ([10007] ++ lit " MISSING").
Proof.
  unfold setOrMissing, configured, env_truthy.
  destruct (env !! key) as [[ | c v] | ]; reflexivity.
Qed.

(** X18: the start-up log shows of the Resend key, the webhook URL and the
    CRM key only whether each is configured: two environments that differ in
    nothing else produce the same log. *)
Theorem startup_log_hides_secrets (env env' : Env) :
  same_but_secrets env env' -> onListening env = onListening env'.
Proof.
  intros (Hp & Hn & H1 & H2 & H3).
  unfold onListening, startupLines, PORT.
  rewrite !setOrMissing_configured, Hp, Hn, H1, H2, H3. reflexivity.
Qed.

Lemma startup_log_hides_secrets_witness : onListening env_one = onListening env_two.
Proof.
  apply (startup_log_hides_secrets env_one env_two). repeat split.
Defined.

(** X19: whenever validation completes, on any raw record, its list is an
    ordered selection of the four fixed messages: at most four entries, none
    twice. *)
Theorem error_list_is_a_selection (s : Submission) errors :
  validate s = Normal errors ->
  sublist errors all_messages /\ NoDup errors /\ (length errors <= 4)%nat.
Proof.
  unfold validate.
  destruct (name_check (name s)) as [c1 | ]; [ | discriminate].
  destruct (phone_check (phone s)) as [c2 | ]; [ | discriminate].
  destruct (email_check (email s)) as [c3 | ]; [ | discriminate].
  simpl. intros H. apply Normal_inj in H.
  change (errors_of c1 c2 c3 (service_check (service s)) = errors) in H. subst errors.
  destruct (errors_of_spec c1 c2 c3 (service_check (service s))) as (Hsub & _).
  split; [exact Hsub | ]. split.
  - eapply sublist_NoDup; [ | exact Hsub].
    apply NoDup_ListNoDup. vm_compute.
    repeat (constructor; [simpl; intuition discriminate | ]). constructor.
  - apply sublist_length in Hsub. exact Hsub.
Qed.

Lemma error_list_is_a_selection_witness :
  sublist [lit "valid phone is required"; lit "service is required"] all_messages
  /\ NoDup [lit "valid phone is required"; lit "service is required"]
  /\ (length [lit "valid phone is required"; lit "service is required"] <= 4)%nat.
Proof.
  apply (error_list_is_a_selection
           {| name := str "Jane Doe"; phone := str "555-1234";
              email := JArray [str "jane@example.com"]; service := JNull;
              address := JUndefined; zipcode := JUndefined; timeline := JUndefined;
              budget := JUndefined; message := JUndefined |}).
  reflexivity.
Defined.

Lemma notificationSubject_head s sj :
  render (notificationSubject s) = Normal sj -> exists rest, sj = 55356 :: rest.
Proof.
  unfold notificationSubject. cbn [render].
  match goal with
  | |- cbind ?c _ = _ -> _ => destruct c as [r | ]; [ | discriminate]
  end.
  cbn [cbind app]. intros H. apply Normal_inj in H. subst sj. eauto.
Qed.

(** X20: the three flags of an accepted request are independent: for every
    valid submission and every choice of three booleans there is a world in
    which the request is answered 200 with exactly these flags. *)
Theorem flags_are_independent req_body s (b1 b2 b3 : bool) :
  destructure req_body = Normal s -> valid_submission s ->
  exists t w',
    run (scripted b1 b2 b3) (post_api_quote crm_env req_body) tt
    = (accepted {| email_sent := b1; crm_pushed := b2; confirmation_sent := b3 |},
       t, w').
Proof.
  intros Hd Hv.
  destruct (handle_valid_run (scripted b1 b2 b3) crm_env req_body s tt Hd Hv)
    as (ts & w1 & r1 & t1 & w2 & r2 & t2 & w3 & r3 & t3 & w4 & line & w5 & H).
  destruct H as (ENow & E1 & E2 & E3 & _ & _ & _ & E).
  destruct Hv as [Hwt _].
  destruct (notificationHtml_renders s ts Hwt) as (h & Hh).
  destruct (notificationSubject_renders s Hwt) as (sj & Hsj).
  destruct (notificationSubject_head s sj Hsj) as (rest & ->).
  destruct (confirmationHtml_renders s Hwt) as (hc & Hhc).
  destruct (confirmation_delivers crm_env (name s) (email s) (service s) hc Hhc)
    as (sc & Hsc & Hd3).
  rewrite (notification_delivers crm_env s ts h _ Hh Hsj) in E1.
  destruct (deliver_run _ _ _ _ _ _ _ _ E1) as (r1' & [= <-] & _ & _ & _ & A1).
  rewrite Hd3 in E3.
  destruct (deliver_run _ _ _ _ _ _ _ _ E3) as (r3' & [= <-] & _ & _ & _ & A3).
  destruct (push_run _ crm_env s ts (lit "https://crm.example/hook") _ _ _ _ eq_refl E2)
    as (r2' & [= <-] & _ & _ & _ & A2 & _).
  assert (success r1 = b1) as B1.
  { destruct b1.
    - apply A1. eexists. split; reflexivity.
    - destruct (success r1); [ | reflexivity].
      destruct (proj1 A1 eq_refl) as (v & Hv & _). discriminate. }
  assert (success r2 = b2) as B2.
  { destruct b2.
    - apply A2. eexists _, _, _. repeat split.
    - destruct (success r2); [ | reflexivity].
      destruct (proj1 A2 eq_refl) as (resp & w' & txt & [= <- _] & _ & Hok).
      discriminate. }
  assert (success r3 = b3) as B3.
  { apply Normal_inj in Hsc. subst sc.
    destruct b3.
    - apply A3. eexists. split; reflexivity.
    - destruct (success r3); [ | reflexivity].
      destruct (proj1 A3 eq_refl) as (v & Hv & _). discriminate. }
  rewrite B1, B2, B3 in E. eauto.
Qed.

Lemma flags_are_independent_witness :
  exists t w',
    run (scripted false true false) (post_api_quote crm_env jane_body) tt
    = (accepted {| email_sent := false; crm_pushed := true; confirmation_sent := false |},
       t, w').
Proof.
  apply (flags_are_independent jane_body jane false true false);
    [reflexivity | split; reflexivity].
Defined.
